(** * battery-stats: a shallow embedding of [battery_stats.cpp]

    The statistics engine ([BatteryMonitor]), the relative-duration formatter
    ([formatRelTime]) and the property translation step
    ([processBatteryProperties]) are embedded as executable Rocq functions.

    - [double] is IEEE binary64: Rocq's primitive [float].
    - [std::chrono] durations and time points are tick counts in [Z]
      (nanoseconds for both clocks, as in libstdc++); [duration_cast]
      truncates toward zero, i.e. [Z.quot].
    - [std::cout] is a [string] that grows at its end.
    - [Clock::now()] and [RelClock::now()] read an oracle: the n-th read of a
      clock returns the n-th value of a sequence owned by the environment.
    - [std::unordered_map<std::string, variant>] is a [gmap string Property]. *)

From Stdlib Require Import ZArith Lia List String Ascii Bool.
From Stdlib Require Import DecimalString.
From Stdlib Require Import Floats.PrimFloat Floats.SpecFloat Floats.FloatOps.
From Stdlib Require Import Floats.FloatAxioms.
From stdpp Require Import base option list gmap strings.

Local Open Scope string_scope.
Local Open Scope Z_scope.

(* ===================================================================== *)
(** * Text formatting primitives ([std::format]) *)
(* ===================================================================== *)

Module Fmt.

(** ["{}"] applied to a signed integer. *)
Definition int (z : Z) : string := NilZero.string_of_int (Z.to_int z).

(** Decimal digits of [n], left-padded with ['0'] to at least [width]. *)
Fixpoint digits (width : nat) (n : N) : string :=
  match width with
  | O => ""
  | S w =>
      digits w (n / 10)
      ++ String (ascii_of_N (48 + n mod 10)) ""
  end.

(** [n * 2^e] rounded to the nearest integer, ties to even: the rounding
    [std::format] applies to the exact binary value of a [double]. *)
Definition round_half_even (n : Z) (e : Z) : Z :=
  if 0 <=? e then n * 2 ^ e
  else
    let d := 2 ^ (- e) in
    let q := n / d in
    let r := n mod d in
    match 2 * r ?= d with
    | Lt => q
    | Gt => q + 1
    | Eq => if Z.even q then q else q + 1
    end.

(** ["{:.<prec>f}"] ([plus = false]) and ["{:+.<prec>f}"] ([plus = true])
    applied to a [double]. *)
Definition fixed (plus : bool) (prec : nat) (x : float) : string :=
  let sgn (s : bool) := if s then "-" else if plus then "+" else "" in
  match Prim2SF x with
  | S754_nan => sgn false ++ "nan"
  | S754_infinity s => sgn s ++ "inf"
  | S754_zero s =>
      sgn s ++ "0" ++ (if prec is O then "" else "." ++ digits prec 0)
  | S754_finite s m e =>
      let scaled := round_half_even (Z.pos m * 10 ^ Z.of_nat prec) e in
      let ip := scaled / 10 ^ Z.of_nat prec in
      let fp := scaled mod 10 ^ Z.of_nat prec in
      sgn s ++ int ip
      ++ (if prec is O then "" else "." ++ digits prec (Z.to_N fp))
  end.

End Fmt.

(** [static_cast<double>] of a 64-bit tick count (round to nearest even). *)
Definition double_of_Z (z : Z) : float :=
  SF2Prim (binary_normalize prec emax z 0 false).

(* ===================================================================== *)
(** * [formatRelTime] *)
(* ===================================================================== *)

(** A [std::chrono::duration]: a tick count and the number of ticks per
    second of its type ([1] for seconds, [1000] for milliseconds,
    [10^9] for nanoseconds). *)
Record Duration := { ticksPerSecond : Z; count : Z }.

Definition seconds (n : Z) : Duration := {| ticksPerSecond := 1; count := n |}.
Definition milliseconds (n : Z) : Duration :=
  {| ticksPerSecond := 1000; count := n |}.
Definition nanoseconds (n : Z) : Duration :=
  {| ticksPerSecond := 1000000000; count := n |}.

(** [duration_cast<std::chrono::seconds>(d).count()]. *)
Definition to_seconds (d : Duration) : Z := Z.quot (count d) (ticksPerSecond d).

Definition formatRelTime (duration : Duration) : string :=
  let relTime := to_seconds duration in
  if relTime =? 0 then ""
  else
    let output := "" in
    let hours := Z.quot relTime 3600 in
    let output := if 0 <? hours then output ++ Fmt.int hours ++ "h" else output in
    let mins := Z.quot relTime 60 - 60 * hours in
    let output := if 0 <? mins then output ++ Fmt.int mins ++ "m" else output in
    let secs := relTime - 3600 * hours - 60 * mins in
    let output := if 0 <? secs then output ++ Fmt.int secs ++ "s" else output in
    output.

(* ===================================================================== *)
(** * Data model *)
(* ===================================================================== *)

Inductive PowerState := Awake | Suspended | Hibernating.

Inductive BatteryState := Charging | Discharging | Idle.

(** [Stat::energy] is [StatEnergy] here: [energy] names the member of
    [Reading]. *)
Inductive Stat := StatEnergy | rate | averageRate | relEnergy.

(** [std::to_underlying] on [Stat]. *)
Definition to_underlying (s : Stat) : Z :=
  match s with
  | StatEnergy => 1
  | rate => 2
  | averageRate => 4
  | relEnergy => 8
  end.

(** [StatFlags]: the [uint32_t] it wraps. *)
Definition StatFlags := Z.

Definition StatFlags_of (s : Stat) : StatFlags := to_underlying s.
Definition StatFlags_or (f : StatFlags) (s : Stat) : StatFlags :=
  Z.lor f (to_underlying s).
Definition StatFlags_has (flags : StatFlags) (a : Stat) : bool :=
  negb (Z.land flags (to_underlying a) =? 0).

Notation "f |' s" := (StatFlags_or f s) (at level 50, left associativity).
Notation "f &' s" := (StatFlags_has f s) (at level 40, no associativity).

(** Time points of [std::chrono::system_clock] ([Time]) and
    [std::chrono::steady_clock] ([RelTime]), in nanoseconds. *)
Definition Time := Z.
Definition RelTime := Z.

Record Reading := {
  time : Time;
  relTime : RelTime;
  energy : float
}.

Record BatteryMonitor := {
  energyEmpty : option float;
  energyFull : option float;
  firstReading : option Reading;
  readings : list Reading;
  printSuspendStats : bool;
  enterSuspendTime : option Time;
  totalSuspendEnergy : float
}.

(** [BatteryMonitor() = default]. *)
Definition BatteryMonitor_default : BatteryMonitor := {|
  energyEmpty := None;
  energyFull := None;
  firstReading := None;
  readings := [];
  printSuspendStats := false;
  enterSuspendTime := None;
  totalSuspendEnergy := 0%float
|}.

(** Assignments to one member. *)
Definition set_energyEmpty (v : option float) (b : BatteryMonitor) :=
  {| energyEmpty := v;
     energyFull := energyFull b;
     firstReading := firstReading b;
     readings := readings b;
     printSuspendStats := printSuspendStats b;
     enterSuspendTime := enterSuspendTime b;
     totalSuspendEnergy := totalSuspendEnergy b |}.

Definition set_energyFull (v : option float) (b : BatteryMonitor) :=
  {| energyEmpty := energyEmpty b;
     energyFull := v;
     firstReading := firstReading b;
     readings := readings b;
     printSuspendStats := printSuspendStats b;
     enterSuspendTime := enterSuspendTime b;
     totalSuspendEnergy := totalSuspendEnergy b |}.

Definition set_firstReading (v : option Reading) (b : BatteryMonitor) :=
  {| energyEmpty := energyEmpty b;
     energyFull := energyFull b;
     firstReading := v;
     readings := readings b;
     printSuspendStats := printSuspendStats b;
     enterSuspendTime := enterSuspendTime b;
     totalSuspendEnergy := totalSuspendEnergy b |}.

Definition set_readings (v : list Reading) (b : BatteryMonitor) :=
  {| energyEmpty := energyEmpty b;
     energyFull := energyFull b;
     firstReading := firstReading b;
     readings := v;
     printSuspendStats := printSuspendStats b;
     enterSuspendTime := enterSuspendTime b;
     totalSuspendEnergy := totalSuspendEnergy b |}.

Definition set_printSuspendStats (v : bool) (b : BatteryMonitor) :=
  {| energyEmpty := energyEmpty b;
     energyFull := energyFull b;
     firstReading := firstReading b;
     readings := readings b;
     printSuspendStats := v;
     enterSuspendTime := enterSuspendTime b;
     totalSuspendEnergy := totalSuspendEnergy b |}.

Definition set_enterSuspendTime (v : option Time) (b : BatteryMonitor) :=
  {| energyEmpty := energyEmpty b;
     energyFull := energyFull b;
     firstReading := firstReading b;
     readings := readings b;
     printSuspendStats := printSuspendStats b;
     enterSuspendTime := v;
     totalSuspendEnergy := totalSuspendEnergy b |}.

Definition set_totalSuspendEnergy (v : float) (b : BatteryMonitor) :=
  {| energyEmpty := energyEmpty b;
     energyFull := energyFull b;
     firstReading := firstReading b;
     readings := readings b;
     printSuspendStats := printSuspendStats b;
     enterSuspendTime := enterSuspendTime b;
     totalSuspendEnergy := v |}.

(** What the engine reads and writes outside itself: both clocks (an oracle
    and the number of reads made so far), the rendering of a
    [std::chrono::zoned_time] with second precision in the current zone, and
    the text written to [std::cout]. *)
Record World := {
  systemClock : nat -> Time;
  systemReads : nat;
  steadyClock : nat -> RelTime;
  steadyReads : nat;
  zonedTime : Z -> string;
  cout : string
}.

Record System := { batmon : BatteryMonitor; world : World }.

(* ===================================================================== *)
(** * A state monad over [System] *)
(* ===================================================================== *)

Definition M (A : Type) : Type := System -> A * System.

Definition ret {A} (a : A) : M A := fun s => (a, s).
Definition bind {A B} (c : M A) (k : A -> M B) : M B :=
  fun s => let (a, s') := c s in k a s'.

Notation "x <- c ;; k" := (bind c (fun x => k))
  (at level 62, c at next level, right associativity).
Notation "c ;;; k" := (bind c (fun _ => k))
  (at level 62, right associativity).

Definition exec {A} (c : M A) (s : System) : System := snd (c s).

Definition this : M BatteryMonitor := fun s => (batmon s, s).
Definition assign (f : BatteryMonitor -> BatteryMonitor) : M unit :=
  fun s => (tt, {| batmon := f (batmon s); world := world s |}).
Definition when (b : bool) (c : M unit) : M unit := if b then c else ret tt.

(** [Clock::now()]. *)
Definition Clock_now : M Time := fun s =>
  let w := world s in
  (systemClock w (systemReads w),
   {| batmon := batmon s;
      world := {| systemClock := systemClock w;
                  systemReads := S (systemReads w);
                  steadyClock := steadyClock w;
                  steadyReads := steadyReads w;
                  zonedTime := zonedTime w;
                  cout := cout w |} |}).

(** [RelClock::now()]. *)
Definition RelClock_now : M RelTime := fun s =>
  let w := world s in
  (steadyClock w (steadyReads w),
   {| batmon := batmon s;
      world := {| systemClock := systemClock w;
                  systemReads := systemReads w;
                  steadyClock := steadyClock w;
                  steadyReads := S (steadyReads w);
                  zonedTime := zonedTime w;
                  cout := cout w |} |}).

(** [std::cout << text]. *)
Definition put (text : string) : M unit := fun s =>
  let w := world s in
  (tt,
   {| batmon := batmon s;
      world := {| systemClock := systemClock w;
                  systemReads := systemReads w;
                  steadyClock := steadyClock w;
                  steadyReads := steadyReads w;
                  zonedTime := zonedTime w;
                  cout := cout w ++ text |} |}).

(** [std::cout << curTime] for a [zoned_time] in the current zone. *)
Definition put_zoned (secs : Z) : M unit := fun s =>
  put (zonedTime (world s) secs) s.

Definition endl : string := String (ascii_of_N 10) "".

(* ===================================================================== *)
(** * [BatteryMonitor] *)
(* ===================================================================== *)

Definition isSuspended (b : BatteryMonitor) : bool :=
  match enterSuspendTime b with Some _ => true | None => false end.

(** [readings.back()]. *)
Definition back (l : list Reading) : option Reading := last l.

(** [std::prev(readings.end(), 2)]. *)
Definition prev2 (l : list Reading) : option Reading :=
  l !! (length l - 2)%nat.

(** [duration_cast<std::chrono::milliseconds>] of a nanosecond difference. *)
Definition to_ms (ns : Z) : Z := Z.quot ns 1000000.

Definition msPerHour : float := double_of_Z (1000 * 60 * 60).

Definition printRate (energyDiff : float) (timeDiff : Z) : M unit :=
  let hours := (double_of_Z timeDiff / msPerHour)%float in
  let watts := (energyDiff / hours)%float in
  put (Fmt.fixed false 2 watts ++ " W") ;;;
  b <- this ;;
  match energyEmpty b, energyFull b with
  | Some empty, Some full =>
      let percentPerHour :=
        ((100 * energyDiff / (full - empty)) / hours)%float in
      if (1 <=? abs percentPerHour)%float
      then put (" (" ++ Fmt.fixed false 1 percentPerHour ++ "%/hr)")
      else
        let percentPerDay := (percentPerHour * 24)%float in
        put (" (" ++ Fmt.fixed false 1 percentPerDay ++ "%/day)")
  | _, _ => ret tt
  end.

Definition print (msg : string) (flags : StatFlags) : M unit :=
  now <- Clock_now ;;
  put_zoned (Z.quot now 1000000000) ;;;
  b <- this ;;
  match firstReading b with
  | Some first =>
      relNow <- RelClock_now ;;
      let runTimeStr := formatRelTime (nanoseconds (relNow - relTime first)) in
      when (negb (String.eqb runTimeStr "")) (put (" (+" ++ runTimeStr ++ ")"))
  | None => ret tt
  end ;;;
  when (negb (String.eqb msg "")) (put (" - " ++ msg)) ;;;
  match back (readings b) with
  | None => put endl
  | Some curReading =>
      let prevReading :=
        if (1 <? length (readings b))%nat then prev2 (readings b) else None in
      when (flags &' StatEnergy)
        (put (" - " ++ Fmt.fixed false 2 (energy curReading) ++ " Wh") ;;;
         match energyEmpty b, energyFull b with
         | Some empty, Some full =>
             let percent :=
               (100 * (energy curReading - empty) / (full - empty))%float in
             put (" (" ++ Fmt.fixed false 2 percent ++ "%)")
         | _, _ => ret tt
         end) ;;;
      match prevReading with
      | Some prevReading =>
          when (flags &' relEnergy)
            (let energyDiff := (energy curReading - energy prevReading)%float in
             put (" - " ++ Fmt.fixed true 2 energyDiff ++ " Wh") ;;;
             match energyEmpty b, energyFull b with
             | Some empty, Some full =>
                 let percent := (100 * energyDiff / (full - empty))%float in
                 put (" (" ++ Fmt.fixed false 2 percent ++ "%)")
             | _, _ => ret tt
             end)
      | None => ret tt
      end ;;;
      match prevReading with
      | Some prevReading =>
          when (flags &' rate)
            (put " / Rate " ;;;
             printRate (energy curReading - energy prevReading)%float
                       (to_ms (time curReading - time prevReading)))
      | None => ret tt
      end ;;;
      match firstReading b with
      | Some first =>
          when ((flags &' averageRate) && (1 <? length (readings b))%nat)
            (put " / Avg " ;;;
             let awakeEnergy :=
               (energy curReading - energy first - totalSuspendEnergy b)%float in
             let awakeTime := relTime curReading - relTime first in
             printRate awakeEnergy (to_ms awakeTime))
      | None => ret tt
      end ;;;
      put endl
  end.

Definition setPowerState (powerState : PowerState) : M unit :=
  match powerState with
  | Suspended =>
      now <- Clock_now ;;
      assign (set_enterSuspendTime (Some now)) ;;;
      print "Going to sleep" 0
  | Awake =>
      b <- this ;;
      match enterSuspendTime b with
      | None => ret tt
      | Some entered =>
          now <- Clock_now ;;
          let suspendTime := milliseconds (to_ms (now - entered)) in
          assign (set_enterSuspendTime None) ;;;
          assign (set_printSuspendStats true) ;;;
          print ("Resumed from " ++ formatRelTime suspendTime ++ " sleep") 0
      end
  | Hibernating => ret tt
  end.

Definition setBatteryState (batteryState : BatteryState) : M unit :=
  match batteryState with
  | Idle => print "Battery idle" 0
  | _ =>
      assign (set_firstReading None) ;;;
      assign (set_readings []) ;;;
      assign (set_totalSuspendEnergy 0%float) ;;;
      match batteryState with
      | Charging => print "Battery charging" 0
      | Discharging => print "Battery discharging" 0
      | Idle => ret tt
      end
  end.

Definition setBatteryLimits (empty full : float) : M unit :=
  assign (set_energyEmpty (Some empty)) ;;;
  assign (set_energyFull (Some full)).

(** [readings.push_back(r); if (readings.size() > 2) readings.pop_front();] *)
Definition push_trim (l : list Reading) (r : Reading) : list Reading :=
  let l' := (l ++ [r])%list in
  if (2 <? length l')%nat then tail l' else l'.

(** [totalSuspendEnergy += (energy - std::prev(readings.end(), 2)->energy)];
    the caller has checked [readings.size() > 1]. *)
Definition attribute_to_sleep (e : float) (b : BatteryMonitor) : BatteryMonitor :=
  match prev2 (readings b) with
  | Some p =>
      set_totalSuspendEnergy (totalSuspendEnergy b + (e - energy p))%float b
  | None => b
  end.

Definition updateEnergy (e : float) : M unit :=
  b <- this ;;
  if isSuspended b then ret tt
  else
    now <- Clock_now ;;
    relNow <- RelClock_now ;;
    let r := {| time := now; relTime := relNow; energy := e |} in
    match firstReading b with
    | Some _ => ret tt
    | None => assign (set_firstReading (Some r))
    end ;;;
    assign (fun b => set_readings (push_trim (readings b) r) b) ;;;
    b <- this ;;
    if printSuspendStats b then
      when (1 <? length (readings b))%nat (assign (attribute_to_sleep e)) ;;;
      print "Sleep energy use" (StatFlags_of relEnergy |' rate) ;;;
      assign (set_printSuspendStats false)
    else
      print "" (StatFlags_of StatEnergy |' rate |' averageRate).

(* ===================================================================== *)
(** * [sleepEventMonitor] and [processBatteryProperties] *)
(* ===================================================================== *)

(** The body of [sleepEventMonitor]'s loop for one received signal. *)
Definition sleepEvent (stage operation extraAction : string) : M unit :=
  if String.eqb operation "suspend" then
    if String.eqb stage "pre" then setPowerState Suspended
    else if String.eqb stage "post" then setPowerState Awake
    else ret tt
  else ret tt.

(** [UPowerDeviceProperty]: the alternatives of the [std::variant], in
    declaration order. *)
Inductive UPowerDeviceProperty :=
| PString (v : string)
| PUint64 (v : Z)
| PUint32 (v : Z)
| PBool (v : bool)
| PDouble (v : float)
| PInt32 (v : Z)
| PInt64 (v : Z).

Abbreviation UPowerDeviceProperties := (gmap string UPowerDeviceProperty).

(** How a call that may throw [std::bad_variant_access] ends. *)
Inductive Outcome := Returned | BadVariantAccess.

(** [std::get<uint32_t>] and [std::get<double>]: [None] is the throw. *)
Definition get_uint32 (p : UPowerDeviceProperty) : option Z :=
  match p with PUint32 v => Some v | _ => None end.
Definition get_double (p : UPowerDeviceProperty) : option float :=
  match p with PDouble v => Some v | _ => None end.

(** Sequencing that stops at the first throw. *)
Definition andThen (c : M Outcome) (k : M Outcome) : M Outcome :=
  o <- c ;;
  match o with Returned => k | BadVariantAccess => ret BadVariantAccess end.

Definition returning (c : M unit) : M Outcome := c ;;; ret Returned.

Definition processBatteryProperties (properties : UPowerDeviceProperties)
  : M Outcome :=
  andThen
    (match properties !! "State" with
     | Some prop =>
         match get_uint32 prop with
         | None => ret BadVariantAccess
         | Some state =>
             if state =? 1 then returning (setBatteryState Charging)
             else if state =? 2 then returning (setBatteryState Discharging)
             else if (state =? 4) || (state =? 5)
                  then returning (setBatteryState Idle)
             else ret Returned
         end
     | None => ret Returned
     end)
  (andThen
    (match properties !! "EnergyEmpty" with
     | Some prop =>
         match get_double prop with
         | None => ret BadVariantAccess
         | Some energyEmpty =>
             match properties !! "EnergyFull" with
             | Some prop =>
                 match get_double prop with
                 | None => ret BadVariantAccess
                 | Some energyFull =>
                     returning (setBatteryLimits energyEmpty energyFull)
                 end
             | None => ret Returned
             end
         end
     | None => ret Returned
     end)
    (match properties !! "Energy" with
     | Some prop =>
         match get_double prop with
         | None => ret BadVariantAccess
         | Some e => returning (updateEnergy e)
         end
     | None => ret Returned
     end)).

(* ===================================================================== *)
(** * Runs: sequences of entry-point calls *)
(* ===================================================================== *)

Inductive Call :=
| CallSetPowerState (p : PowerState)
| CallSetBatteryState (b : BatteryState)
| CallSetBatteryLimits (empty full : float)
| CallUpdateEnergy (e : float).

Definition perform (c : Call) : M unit :=
  match c with
  | CallSetPowerState p => setPowerState p
  | CallSetBatteryState b => setBatteryState b
  | CallSetBatteryLimits empty full => setBatteryLimits empty full
  | CallUpdateEnergy e => updateEnergy e
  end.

Fixpoint run (cs : list Call) (s : System) : System :=
  match cs with
  | [] => s
  | c :: cs' => run cs' (exec (perform c) s)
  end.

(** A fresh engine in a given environment. *)
Definition boot (w : World) : System :=
  {| batmon := BatteryMonitor_default; world := w |}.

(* ===================================================================== *)
(** * What a call leaves behind: clock reads and text *)
(* ===================================================================== *)

(** The system after [i] reads of the system clock, [j] reads of the steady
    clock and [text] written to [std::cout], with the engine as it was. *)
Definition advanced (s : System) (i j : nat) (text : string) : System :=
  let w := world s in
  {| batmon := batmon s;
     world := {| systemClock := systemClock w;
                 systemReads := (i + systemReads w)%nat;
                 steadyClock := steadyClock w;
                 steadyReads := (j + steadyReads w)%nat;
                 zonedTime := zonedTime w;
                 cout := cout w ++ text |} |}.

(** The same system with another engine state. *)
Definition with_batmon (s : System) (b : BatteryMonitor) : System :=
  {| batmon := b; world := world s |}.

(** The text [printRate] writes. *)
Definition rateText (b : BatteryMonitor) (energyDiff : float) (timeDiff : Z)
  : string :=
  let hours := (double_of_Z timeDiff / msPerHour)%float in
  Fmt.fixed false 2 (energyDiff / hours)%float ++ " W"
  ++ match energyEmpty b, energyFull b with
     | Some empty, Some full =>
         let percentPerHour :=
           ((100 * energyDiff / (full - empty)) / hours)%float in
         if (1 <=? abs percentPerHour)%float
         then " (" ++ Fmt.fixed false 1 percentPerHour ++ "%/hr)"
         else " (" ++ Fmt.fixed false 1 (percentPerHour * 24)%float ++ "%/day)"
     | _, _ => ""
     end.

(** The " (+elapsed)" suffix of a line's time stamp. *)
Definition elapsedText (w : World) (b : BatteryMonitor) : string :=
  match firstReading b with
  | Some first =>
      let runTimeStr :=
        formatRelTime
          (nanoseconds (steadyClock w (steadyReads w) - relTime first)) in
      if String.eqb runTimeStr "" then "" else " (+" ++ runTimeStr ++ ")"
  | None => ""
  end.

(** The start of every line: time stamp, elapsed run time, message. *)
Definition stampText (w : World) (b : BatteryMonitor) (msg : string) : string :=
  zonedTime w (Z.quot (systemClock w (systemReads w)) 1000000000)
  ++ elapsedText w b
  ++ (if String.eqb msg "" then "" else " - " ++ msg).

(** Percentage of capacity, when both limits are known. *)
Definition percentText (b : BatteryMonitor) (x : float) : string :=
  match energyEmpty b, energyFull b with
  | Some empty, Some full =>
      " (" ++ Fmt.fixed false 2 (100 * x / (full - empty))%float ++ "%)"
  | _, _ => ""
  end.

Definition energyText (b : BatteryMonitor) (cur : Reading) : string :=
  " - " ++ Fmt.fixed false 2 (energy cur) ++ " Wh"
  ++ match energyEmpty b, energyFull b with
     | Some empty, Some full =>
         " (" ++ Fmt.fixed false 2
                   (100 * (energy cur - empty) / (full - empty))%float ++ "%)"
     | _, _ => ""
     end.

Definition relEnergyText (b : BatteryMonitor) (cur prev : Reading) : string :=
  " - " ++ Fmt.fixed true 2 (energy cur - energy prev)%float ++ " Wh"
  ++ percentText b (energy cur - energy prev)%float.

Definition instantRateText (b : BatteryMonitor) (cur prev : Reading) : string :=
  " / Rate "
  ++ rateText b (energy cur - energy prev)%float (to_ms (time cur - time prev)).

Definition averageRateText (b : BatteryMonitor) (cur first : Reading) : string :=
  " / Avg "
  ++ rateText b (energy cur - energy first - totalSuspendEnergy b)%float
       (to_ms (relTime cur - relTime first)).

(** The fields that follow the stamp, and the end of the line. *)
Definition fieldsText (b : BatteryMonitor) (flags : StatFlags) : string :=
  match back (readings b) with
  | None => endl
  | Some cur =>
      let prev :=
        if (1 <? length (readings b))%nat then prev2 (readings b) else None in
      (if flags &' StatEnergy then energyText b cur else "")
      ++ match prev with
         | Some p => if flags &' relEnergy then relEnergyText b cur p else ""
         | None => ""
         end
      ++ match prev with
         | Some p => if flags &' rate then instantRateText b cur p else ""
         | None => ""
         end
      ++ match firstReading b with
         | Some first =>
             if (flags &' averageRate) && (1 <? length (readings b))%nat
             then averageRateText b cur first else ""
         | None => ""
         end
      ++ endl
  end.

Definition printText (w : World) (b : BatteryMonitor) (msg : string)
  (flags : StatFlags) : string :=
  stampText w b msg ++ fieldsText b flags.

(** Steady-clock reads made by one [print]. *)
Definition printSteadyReads (b : BatteryMonitor) : nat :=
  match firstReading b with Some _ => 1%nat | None => 0%nat end.

(** [writes c a i j t s]: run from [s], [c] returns [a], leaves the engine
    as it was, reads the clocks [i] and [j] times and writes [t]. *)
Definition writes {A} (c : M A) (a : A) (i j : nat) (t : string) (s : System)
  : Prop :=
  c s = (a, advanced s i j t).

(* ===================================================================== *)
(** * The engine at each step of a call *)
(* ===================================================================== *)

(** The [Reading] that [updateEnergy e] constructs when run from [s]. *)
Definition readingAt (s : System) (e : float) : Reading :=
  {| time := systemClock (world s) (systemReads (world s));
     relTime := steadyClock (world s) (steadyReads (world s));
     energy := e |}.

(** The engine once [updateEnergy] has stored its reading. *)
Definition stored (b : BatteryMonitor) (r : Reading) : BatteryMonitor :=
  set_readings (push_trim (readings b) r)
    match firstReading b with
    | Some _ => b
    | None => set_firstReading (Some r) b
    end.

(** The engine when [updateEnergy] reaches its [print]. *)
Definition accounted (b : BatteryMonitor) (r : Reading) : BatteryMonitor :=
  let b1 := stored b r in
  if printSuspendStats b && (1 <? length (readings b1))%nat
  then attribute_to_sleep (energy r) b1
  else b1.

Definition updateEnergy_msg (b : BatteryMonitor) : string :=
  if printSuspendStats b then "Sleep energy use" else "".

Definition updateEnergy_flags (b : BatteryMonitor) : StatFlags :=
  if printSuspendStats b then StatFlags_of relEnergy |' rate
  else StatFlags_of StatEnergy |' rate |' averageRate.

(** The environment after [i] and [j] reads of the two clocks. *)
Definition tick (w : World) (i j : nat) : World :=
  {| systemClock := systemClock w;
     systemReads := (i + systemReads w)%nat;
     steadyClock := steadyClock w;
     steadyReads := (j + steadyReads w)%nat;
     zonedTime := zonedTime w;
     cout := cout w |}.

(** The full reset of [setBatteryState]. *)
Definition cleared (b : BatteryMonitor) : BatteryMonitor :=
  set_totalSuspendEnergy 0%float (set_readings [] (set_firstReading None b)).

Definition batteryStateMsg (batteryState : BatteryState) : string :=
  match batteryState with
  | Charging => "Battery charging"
  | Discharging => "Battery discharging"
  | Idle => "Battery idle"
  end.

(* ===================================================================== *)
(** * Concrete environments for the worked scenarios *)
(* ===================================================================== *)

(** A clock whose successive reads return the elements of [l] (and its last
    element from then on). *)
Definition oracle (l : list Z) (n : nat) : Z := nth n l (List.last l 0).

(** A zone that renders a time stamp as ["@<seconds since the epoch>"]. *)
Definition epochZone (secs : Z) : string := "@" ++ Fmt.int secs.

Definition worldOf (systemTimes steadyTimes : list Z) : World :=
  {| systemClock := oracle systemTimes;
     systemReads := 0;
     steadyClock := oracle steadyTimes;
     steadyReads := 0;
     zonedTime := epochZone;
     cout := "" |}.

(** Both clocks advance by one second per read. *)
Definition demoWorld : World :=
  {| systemClock := fun n => 1700000000000000000 + Z.of_nat n * 1000000000;
     systemReads := 0;
     steadyClock := fun n => Z.of_nat n * 1000000000;
     steadyReads := 0;
     zonedTime := epochZone;
     cout := "" |}.

(** A reading, a suspend that lasts 90 seconds, and a reading 5 seconds
    after the resume. Clock reads, in seconds after the first: system
    0 1 10 10 100 100 105 105, steady 0 1 10 100 105 105. *)
Definition ninetySeconds : World :=
  worldOf
    (map (fun t => 1700000000000000000 + t * 1000000000)
         [0; 1; 10; 10; 100; 100; 105; 105])
    (map (fun t => t * 1000000000) [0; 1; 10; 100; 105; 105]).

(** The capacity limits after a run that starts with [cur]. *)
Fixpoint limitsAfter (cs : list Call) (cur : option float * option float)
  : option float * option float :=
  match cs with
  | [] => cur
  | CallSetBatteryLimits empty full :: cs' =>
      limitsAfter cs' (Some empty, Some full)
  | _ :: cs' => limitsAfter cs' cur
  end.

(* ===================================================================== *)
(** * States used as examples *)
(* ===================================================================== *)

(** A suspended engine that already holds two readings. *)
Definition asleep : System :=
  run [CallUpdateEnergy 50; CallUpdateEnergy 49.5; CallSetPowerState Suspended]
      (boot demoWorld).

(* ===================================================================== *)
(** * Vocabulary of the Sample Window *)
(* ===================================================================== *)

(** The last two elements of a list. *)
Definition last_two (l : list Reading) : list Reading :=
  drop (length l - 2) l.

(** An engine that has one reading and has just resumed from a suspend. *)
Definition resumed : System :=
  run [CallUpdateEnergy 50; CallSetPowerState Suspended; CallSetPowerState Awake]
      (boot demoWorld).

(** The readings constructed by successive [updateEnergy] calls that start
    from [s], in arrival order. *)
Fixpoint admittedReadings (es : list float) (s : System) : list Reading :=
  match es with
  | [] => []
  | e :: es' => readingAt s e :: admittedReadings es' (exec (updateEnergy e) s)
  end.

(* ===================================================================== *)
(** * Vocabulary of the relative-duration formatter *)
(* ===================================================================== *)

(** Modelled from the spec: the formatter as section 4.2 words it, which
    emits the token of every unit that is nonzero. *)
Definition spec_unit_token (n : Z) (letter : string) : string :=
  if n =? 0 then "" else Fmt.int n ++ letter.

Definition spec_formatRelTime (duration : Duration) : string :=
  let total := to_seconds duration in
  let hours := Z.quot total 3600 in
  let mins := Z.quot total 60 - 60 * hours in
  let secs := total - 3600 * hours - 60 * mins in
  spec_unit_token hours "h" ++ spec_unit_token mins "m"
  ++ spec_unit_token secs "s".

(** The token the code emits: only for a positive count. *)
Definition unit_token (n : Z) (letter : string) : string :=
  if 0 <? n then Fmt.int n ++ letter else "".

(* ===================================================================== *)
(** * Vocabulary of the property translation *)
(* ===================================================================== *)

(** The property values have the types the battery device declares. *)
Definition well_typed (properties : UPowerDeviceProperties) : bool :=
  match properties !! "State" with
  | Some (PUint32 _) | None => true
  | Some _ => false
  end
  && match properties !! "EnergyEmpty" with
     | Some (PDouble _) | None => true
     | Some _ => false
     end
  && match properties !! "EnergyFull" with
     | Some (PDouble _) | None => true
     | Some _ => false
     end
  && match properties !! "Energy" with
     | Some (PDouble _) | None => true
     | Some _ => false
     end.

(** The entry-point calls made for the "State" property. *)
Definition stateCalls (properties : UPowerDeviceProperties) : list Call :=
  match properties !! "State" with
  | Some (PUint32 1) => [CallSetBatteryState Charging]
  | Some (PUint32 2) => [CallSetBatteryState Discharging]
  | Some (PUint32 4) | Some (PUint32 5) => [CallSetBatteryState Idle]
  | _ => []
  end.

(** The call made for "EnergyEmpty" and "EnergyFull". *)
Definition limitsCalls (properties : UPowerDeviceProperties) : list Call :=
  match properties !! "EnergyEmpty", properties !! "EnergyFull" with
  | Some (PDouble empty), Some (PDouble full) =>
      [CallSetBatteryLimits empty full]
  | _, _ => []
  end.

(** The call made for "Energy". *)
Definition energyCalls (properties : UPowerDeviceProperties) : list Call :=
  match properties !! "Energy" with
  | Some (PDouble e) => [CallUpdateEnergy e]
  | _ => []
  end.

(** Modelled from the spec: the calls section 6 describes for a notification
    whose properties arrive in the order of the list, each forwarded at the
    place where it appears (the limits where "EnergyEmpty" appears, when
    "EnergyFull" is present too). *)
Fixpoint spec_forward_in_order (all rest : list (string * UPowerDeviceProperty))
  : list Call :=
  match rest with
  | [] => []
  | (name, value) :: rest' =>
      (if String.eqb name "State" then
         match value with
         | PUint32 1 => [CallSetBatteryState Charging]
         | PUint32 2 => [CallSetBatteryState Discharging]
         | PUint32 4 | PUint32 5 => [CallSetBatteryState Idle]
         | _ => []
         end
       else if String.eqb name "EnergyEmpty" then
         match value, (list_to_map all : UPowerDeviceProperties) !! "EnergyFull" with
         | PDouble empty, Some (PDouble full) => [CallSetBatteryLimits empty full]
         | _, _ => []
         end
       else if String.eqb name "Energy" then
         match value with
         | PDouble e => [CallUpdateEnergy e]
         | _ => []
         end
       else [])
      ++ spec_forward_in_order all rest'
  end.

(** A change notification that lists the energy before the state. *)
Definition energyThenState : list (string * UPowerDeviceProperty) :=
  [("Energy", PDouble 50); ("State", PUint32 2)].

(* ===================================================================== *)
(** * Vocabulary of runs that admit no reading *)
(* ===================================================================== *)

(** [setBatteryState] with Charging or Discharging. *)
Definition resets (batteryState : BatteryState) : bool :=
  match batteryState with Idle => false | _ => true end.

(** Does call [c], made in state [s], admit a reading? *)
Definition admits (s : System) (c : Call) : bool :=
  match c with
  | CallUpdateEnergy _ => negb (isSuspended (batmon s))
  | _ => false
  end.

(** No call of the run [cs], started in [s], admits a reading. *)
Fixpoint admitsNone (cs : list Call) (s : System) : bool :=
  match cs with
  | [] => true
  | c :: cs' => negb (admits s c) && admitsNone cs' (exec (perform c) s)
  end.

(** The engine holds nothing of the current epoch. *)
Definition blank (b : BatteryMonitor) : Prop :=
  firstReading b = None /\ readings b = [] /\ totalSuspendEnergy b = 0%float.

(** Suspended, or resumed with the report still pending. *)
Definition sleep_pending (b : BatteryMonitor) : bool :=
  isSuspended b || printSuspendStats b.

(* ===================================================================== *)
(** * [sleepEventMonitor] and [powerEventMonitor]: the listeners *)
(* ===================================================================== *)

(** One [SystemdSleepEvent] signal: (stage, operation, extraAction). *)
Definition SleepSignal : Type := string * string * string.

(** [sleepEventMonitor]'s loop over the signals received so far. *)
Fixpoint sleepEventMonitor (signals : list SleepSignal) : M unit :=
  match signals with
  | [] => ret tt
  | (stage, operation, extraAction) :: rest =>
      sleepEvent stage operation extraAction ;;;
      sleepEventMonitor rest
  end.

(** One [PropertiesChanged] signal of the battery object. *)
Record PropertiesChanged := {
  interfaceName : string;
  changedProps : UPowerDeviceProperties;
  invalProps : list string
}.

(** What the bus answers to [powerEventMonitor] (every request is taken to
    be answered): the enumerated devices, each with the value of its "Type"
    property; all properties of a device; and the change signals a device
    sends afterwards. *)
Record Bus := {
  enumerateDevices : list (string * Z);
  getAllProperties : string -> UPowerDeviceProperties;
  propertiesChanged : string -> list PropertiesChanged
}.

(** The device loop of [powerEventMonitor]: [None] is the [co_return] on a
    second battery, [Some batteryPath] the end of the loop. *)
Fixpoint findBattery (devices : list (string * Z)) (batteryPath : option string)
  : M (option (option string)) :=
  match devices with
  | [] => ret (Some batteryPath)
  | (device, type) :: rest =>
      if type =? 2 then
        put ("Found battery at " ++ device ++ endl) ;;;
        match batteryPath with
        | Some _ =>
            put ("Multiple batteries not supported yet" ++ endl) ;;;
            ret None
        | None => findBattery rest (Some device)
        end
      else findBattery rest batteryPath
  end.

(** How [powerEventMonitor] stands after the signals received so far. *)
Inductive MonitorState :=
| GaveUp          (**r [co_return]: no battery, or more than one *)
| Terminated      (**r left by [std::bad_variant_access] *)
| Listening.      (**r awaiting the next change signal *)

(** The [while (true)] loop over the change signals received so far. *)
Fixpoint watch (changes : list PropertiesChanged) : M MonitorState :=
  match changes with
  | [] => ret Listening
  | change :: rest =>
      o <- processBatteryProperties (changedProps change) ;;
      match o with
      | Returned => watch rest
      | BadVariantAccess => ret Terminated
      end
  end.

Definition powerEventMonitor (bus : Bus) : M MonitorState :=
  found <- findBattery (enumerateDevices bus) None ;;
  match found with
  | None => ret GaveUp
  | Some None => put ("No battery found" ++ endl) ;;; ret GaveUp
  | Some (Some batteryPath) =>
      o <- processBatteryProperties (getAllProperties bus batteryPath) ;;
      match o with
      | Returned => watch (propertiesChanged bus batteryPath)
      | BadVariantAccess => ret Terminated
      end
  end.

(* ===================================================================== *)
(** * Vocabulary of the further properties *)
(* ===================================================================== *)

Definition Stat_eqb (a b : Stat) : bool :=
  match a, b with
  | StatEnergy, StatEnergy | rate, rate
  | averageRate, averageRate | relEnergy, relEnergy => true
  | _, _ => false
  end.

(** Whether the engine is suspended after the calls [cs], given whether it
    was before: the last Suspended or Awake call decides. *)
Fixpoint suspendedAfter (cs : list Call) (before : bool) : bool :=
  match cs with
  | [] => before
  | CallSetPowerState Suspended :: cs' => suspendedAfter cs' true
  | CallSetPowerState Awake :: cs' => suspendedAfter cs' false
  | _ :: cs' => suspendedAfter cs' before
  end.

(** The same for sleep signals: only ("pre", "suspend") and
    ("post", "suspend") count. *)
Fixpoint suspendedAfterSignals (signals : list SleepSignal) (before : bool)
  : bool :=
  match signals with
  | [] => before
  | (stage, operation, _) :: rest =>
      if String.eqb operation "suspend" then
        if String.eqb stage "pre" then suspendedAfterSignals rest true
        else if String.eqb stage "post" then suspendedAfterSignals rest false
        else suspendedAfterSignals rest before
      else suspendedAfterSignals rest before
  end.

(** The entry-point call a sleep signal leads to, if any. *)
Definition signalCalls (signal : SleepSignal) : list Call :=
  let '(stage, operation, _) := signal in
  if String.eqb operation "suspend" then
    if String.eqb stage "pre" then [CallSetPowerState Suspended]
    else if String.eqb stage "post" then [CallSetPowerState Awake]
    else []
  else [].

(** No call of [cs] is a Charging or Discharging transition. *)
Definition noReset (cs : list Call) : bool :=
  forallb (fun c => match c with
                    | CallSetBatteryState b => negb (resets b)
                    | _ => true
                    end) cs.

(** No call of [cs] is [setPowerState(Suspended)]. *)
Definition noSuspend (cs : list Call) : bool :=
  forallb (fun c => match c with
                    | CallSetPowerState Suspended => false
                    | _ => true
                    end) cs.

(** The first reading admitted in the run [cs] started in [s], if any. *)
Fixpoint firstAdmitted (cs : list Call) (s : System) : option Reading :=
  match cs with
  | [] => None
  | c :: cs' =>
      match c with
      | CallUpdateEnergy e =>
          if isSuspended (batmon s) then firstAdmitted cs' (exec (perform c) s)
          else Some (readingAt s e)
      | _ => firstAdmitted cs' (exec (perform c) s)
      end
  end.

(** A property is present with another alternative than the one read. *)
Definition not_uint32 (p : option UPowerDeviceProperty) : bool :=
  match p with Some (PUint32 _) | None => false | Some _ => true end.
Definition not_double (p : option UPowerDeviceProperty) : bool :=
  match p with Some (PDouble _) | None => false | Some _ => true end.

(** The object paths of the enumerated devices whose "Type" is 2. *)
Definition batteries (devices : list (string * Z)) : list string :=
  map fst (List.filter (fun d => snd d =? 2) devices).

Definition present (p : option UPowerDeviceProperty) : bool :=
  match p with Some _ => true | None => false end.

(** [processBatteryProperties] reaches a [std::get] of the wrong
    alternative: "EnergyFull" is read only when "EnergyEmpty" is present. *)
Definition throws (properties : UPowerDeviceProperties) : bool :=
  not_uint32 (properties !! "State")
  || not_double (properties !! "EnergyEmpty")
  || present (properties !! "EnergyEmpty")
     && not_double (properties !! "EnergyFull")
  || not_double (properties !! "Energy").

(** The property names [processBatteryProperties] looks up. *)
Definition lookedUp (name : string) : bool :=
  String.eqb name "State" || String.eqb name "EnergyEmpty"
  || String.eqb name "EnergyFull" || String.eqb name "Energy".

(** A change signal whose "Energy" is a string, and one that is as the
    device declares it. *)
Definition malformed : PropertiesChanged :=
  {| interfaceName := "org.freedesktop.UPower.Device";
     changedProps := {[ "Energy" := PString "50" ]};
     invalProps := [] |}.

Definition wellFormed : PropertiesChanged :=
  {| interfaceName := "org.freedesktop.UPower.Device";
     changedProps := {[ "Energy" := PDouble 50 ]};
     invalProps := [] |}.

(** What a listener hands to the engine: a sleep signal, or the properties
    of a snapshot or change signal. *)
Inductive Received :=
| ReceivedSleep (signal : SleepSignal)
| ReceivedProperties (properties : UPowerDeviceProperties).

(** The handler bodies run one after the other, each to its end. *)
Definition handle (r : Received) (s : System) : System :=
  match r with
  | ReceivedSleep (stage, operation, extraAction) =>
      exec (sleepEvent stage operation extraAction) s
  | ReceivedProperties properties =>
      snd (processBatteryProperties properties s)
  end.

Definition handleAll (received : list Received) (s : System) : System :=
  fold_left (fun s r => handle r s) received s.

(* ********************************************************************* *)
(** * Facts *)
(* ********************************************************************* *)

(* ===================================================================== *)
(** * Strings and the text a call writes *)
(* ===================================================================== *)

Lemma append_nil_r (s : string) : s ++ "" = s.
Proof. induction s as [|a s IH]; [reflexivity|]. change (String a (s ++ "") = String a s). now rewrite IH. Qed.

Lemma append_assoc (s t u : string) : (s ++ t) ++ u = s ++ (t ++ u).
Proof.
  induction s as [|a s IH]; [reflexivity|].
  change (String a ((s ++ t) ++ u) = String a (s ++ (t ++ u))).
  now rewrite IH.
Qed.

Lemma advanced_0 (s : System) : advanced s 0 0 "" = s.
Proof.
  destruct s as [b [sc sr tc tr z c]]. unfold advanced. simpl.
  now rewrite append_nil_r.
Qed.

Lemma advanced_advanced (s : System) i j t i' j' t' :
  advanced (advanced s i j t) i' j' t' = advanced s (i' + i) (j' + j) (t ++ t').
Proof.
  unfold advanced. simpl. rewrite append_assoc, !Nat.add_assoc. reflexivity.
Qed.

Lemma printRate_spec (energyDiff : float) (timeDiff : Z) (s : System) :
  printRate energyDiff timeDiff s
  = (tt, advanced s 0 0 (rateText (batmon s) energyDiff timeDiff)).
Proof.
  unfold printRate, rateText, bind, put, this, ret, advanced. simpl.
  destruct (energyEmpty (batmon s)), (energyFull (batmon s)); simpl;
    try (now rewrite ?append_assoc, ?append_nil_r).
  destruct (_ <=? _)%float; simpl; now rewrite ?append_assoc.
Qed.

Lemma writes_ret {A} (a : A) s : writes (ret a) a 0 0 "" s.
Proof. unfold writes, ret. now rewrite advanced_0. Qed.

Lemma writes_this s : writes this (batmon s) 0 0 "" s.
Proof. unfold writes, this. now rewrite advanced_0. Qed.

Lemma writes_put t s : writes (put t) tt 0 0 t s.
Proof. reflexivity. Qed.

Lemma writes_put_zoned z s : writes (put_zoned z) tt 0 0 (zonedTime (world s) z) s.
Proof. reflexivity. Qed.

Lemma writes_Clock_now s :
  writes Clock_now (systemClock (world s) (systemReads (world s))) 1 0 "" s.
Proof.
  unfold writes, Clock_now, advanced. simpl. now rewrite append_nil_r.
Qed.

Lemma writes_RelClock_now s :
  writes RelClock_now (steadyClock (world s) (steadyReads (world s))) 0 1 "" s.
Proof.
  unfold writes, RelClock_now, advanced. simpl. now rewrite append_nil_r.
Qed.

Lemma writes_bind {A B} (c : M A) (k : A -> M B) a b i j t i' j' t' s :
  writes c a i j t s ->
  writes (k a) b i' j' t' (advanced s i j t) ->
  writes (bind c k) b (i' + i) (j' + j) (t ++ t') s.
Proof.
  unfold writes, bind. intros -> ->. now rewrite advanced_advanced.
Qed.

Lemma writes_seq {A B} (c : M A) (k : A -> M B) a b i j t i' j' t' i2 j2 t2 s :
  writes c a i j t s ->
  writes (k a) b i' j' t' (advanced s i j t) ->
  i2 = (i' + i)%nat -> j2 = (j' + j)%nat -> t2 = t ++ t' ->
  writes (bind c k) b i2 j2 t2 s.
Proof. intros H1 H2 -> -> ->. now apply (writes_bind c k a). Qed.

Lemma writes_conv {A} (c : M A) a i j t i' j' t' s :
  writes c a i j t s -> i = i' -> j = j' -> t = t' -> writes c a i' j' t' s.
Proof. now intros H <- <- <-. Qed.

Lemma writes_when (b : bool) (c : M unit) t s :
  (b = true -> writes c tt 0 0 t s) ->
  writes (when b c) tt 0 0 (if b then t else "") s.
Proof.
  destruct b; simpl; intros H; [now apply H | apply writes_ret].
Qed.

Lemma writes_printRate energyDiff timeDiff s :
  writes (printRate energyDiff timeDiff) tt 0 0
    (rateText (batmon s) energyDiff timeDiff) s.
Proof. apply printRate_spec. Qed.

(** Chains [writes_seq] through a block of straight-line code. *)
Ltac writes_step :=
  lazymatch goal with
  | |- writes (ret _) _ _ _ _ _ => apply writes_ret
  | |- writes this _ _ _ _ _ => apply writes_this
  | |- writes (put _) _ _ _ _ _ => apply writes_put
  | |- writes (put_zoned _) _ _ _ _ _ => apply writes_put_zoned
  | |- writes Clock_now _ _ _ _ _ => apply writes_Clock_now
  | |- writes RelClock_now _ _ _ _ _ => apply writes_RelClock_now
  | |- writes (printRate _ _) _ _ _ _ _ => apply writes_printRate
  | |- writes (when _ _) _ _ _ _ _ => apply writes_when; intros _
  | |- writes (bind _ _) _ _ _ _ _ => eapply writes_seq; [ | cbv beta | .. ]
  | |- _ = _ => reflexivity
  end.

Lemma writes_elapsed (b : BatteryMonitor) (s : System) :
  batmon s = b ->
  writes
    match firstReading b with
    | Some first =>
        relNow <- RelClock_now ;;
        let runTimeStr := formatRelTime (nanoseconds (relNow - relTime first)) in
        when (negb (String.eqb runTimeStr "")) (put (" (+" ++ runTimeStr ++ ")"))
    | None => ret tt
    end tt 0 (printSteadyReads b) (elapsedText (world s) b) s.
Proof.
  intros Hb. unfold printSteadyReads, elapsedText.
  destruct (firstReading b) as [first|]; [|apply writes_ret].
  eapply writes_conv.
  - eapply writes_bind; [apply writes_RelClock_now|].
    cbv zeta. apply writes_when. intros _. apply writes_put.
  - reflexivity.
  - reflexivity.
  - now destruct (String.eqb _ "").
Qed.

Lemma print_spec (msg : string) (flags : StatFlags) (s : System) :
  print msg flags s
  = (tt, advanced s 1 (printSteadyReads (batmon s))
           (printText (world s) (batmon s) msg flags)).
Proof.
  change (writes (print msg flags) tt 1 (printSteadyReads (batmon s))
            (printText (world s) (batmon s) msg flags) s).
  unfold print.
  eapply writes_conv.
  - eapply writes_bind; [apply writes_Clock_now|].
    eapply writes_bind; [apply writes_put_zoned|].
    eapply writes_bind; [apply writes_this|].
    eapply writes_bind; [apply writes_elapsed; reflexivity|].
    eapply writes_bind; [apply writes_when; intros _; apply writes_put|].
    cbn [batmon advanced world].
    match goal with
    | |- writes ?c _ _ _ _ ?s' =>
        enough (H : writes c tt 0 0 (fieldsText (batmon s) flags) s') by exact H
    end.
    unfold fieldsText, energyText, relEnergyText, instantRateText,
      averageRateText, percentText.
    destruct (back (readings (batmon s))) as [cur|]; [|apply writes_put].
    destruct (if (1 <? length (readings (batmon s)))%nat
              then prev2 (readings (batmon s)) else None) as [p|];
      destruct (firstReading (batmon s)) as [first|];
      destruct (energyEmpty (batmon s)) as [empty|] eqn:He;
      destruct (energyFull (batmon s)) as [full|] eqn:Hf;
      (eapply writes_conv;
       [ repeat writes_step | reflexivity | reflexivity
       | cbn [batmon advanced]; unfold rateText; rewrite ?He, ?Hf;
         rewrite ?append_assoc, ?append_nil_r; reflexivity ]).
  - reflexivity.
  - cbn [batmon advanced Nat.add]. now rewrite !Nat.add_0_r.
  - unfold printText, stampText.
    cbn [batmon world advanced systemClock systemReads steadyClock
         steadyReads zonedTime cout].
    destruct (String.eqb msg ""); cbn [negb];
      rewrite ?append_assoc, ?append_nil_r; reflexivity.
Qed.

(* ===================================================================== *)
(** * The entry points, one call at a time *)
(* ===================================================================== *)

Ltac projections :=
  cbn [batmon world fst snd
       energyEmpty energyFull firstReading readings printSuspendStats
       enterSuspendTime totalSuspendEnergy
       set_energyEmpty set_energyFull set_firstReading set_readings
       set_printSuspendStats set_enterSuspendTime set_totalSuspendEnergy
       systemClock systemReads steadyClock steadyReads zonedTime cout
       time relTime energy Nat.add].

Lemma updateEnergy_suspended (e : float) (s : System) :
  isSuspended (batmon s) = true -> updateEnergy e s = (tt, s).
Proof.
  intros H. unfold updateEnergy, bind, this. now rewrite H.
Qed.

Lemma attribute_to_sleep_frame (e : float) (b : BatteryMonitor) :
  energyEmpty (attribute_to_sleep e b) = energyEmpty b
  /\ energyFull (attribute_to_sleep e b) = energyFull b
  /\ firstReading (attribute_to_sleep e b) = firstReading b
  /\ readings (attribute_to_sleep e b) = readings b
  /\ printSuspendStats (attribute_to_sleep e b) = printSuspendStats b
  /\ enterSuspendTime (attribute_to_sleep e b) = enterSuspendTime b.
Proof. unfold attribute_to_sleep. now destruct (prev2 (readings b)). Qed.

Lemma firstReading_attribute_to_sleep e b :
  firstReading (attribute_to_sleep e b) = firstReading b.
Proof. apply attribute_to_sleep_frame. Qed.

Lemma updateEnergy_admitted (e : float) (s : System) :
  isSuspended (batmon s) = false ->
  exec (updateEnergy e) s
  = let b := batmon s in
    let b2 := accounted b (readingAt s e) in
    let s2 := {| batmon := b2; world := tick (world s) 1 1 |} in
    with_batmon
      (advanced s2 1 1
         (printText (world s2) b2 (updateEnergy_msg b) (updateEnergy_flags b)))
      (set_printSuspendStats false b2).
Proof.
  intros awake. destruct s as [b w]. cbn [batmon] in awake.
  unfold exec, updateEnergy, bind at 1, this. cbn [batmon]. rewrite awake.
  unfold accounted, stored, updateEnergy_msg, updateEnergy_flags, readingAt.
  unfold bind, Clock_now, RelClock_now, assign, when, this, ret, tick.
  destruct b as [ee ef [first|] rs [|] est tot]; projections;
    try destruct (1 <? length _)%nat eqn:Hlen;
    rewrite print_spec; unfold with_batmon, advanced, printSteadyReads;
    projections; rewrite ?firstReading_attribute_to_sleep; projections;
    cbn [andb]; reflexivity.
Qed.

Lemma setPowerState_Suspended (s : System) :
  exec (setPowerState Suspended) s
  = let now := systemClock (world s) (systemReads (world s)) in
    let b1 := set_enterSuspendTime (Some now) (batmon s) in
    let s1 := {| batmon := b1; world := tick (world s) 1 0 |} in
    advanced s1 1 (printSteadyReads b1)
      (printText (world s1) b1 "Going to sleep" 0).
Proof.
  destruct s as [b w].
  unfold exec, setPowerState, bind, Clock_now, assign, tick. projections.
  now rewrite print_spec.
Qed.

Lemma setPowerState_Awake_spurious (s : System) :
  enterSuspendTime (batmon s) = None -> setPowerState Awake s = (tt, s).
Proof. intros H. unfold setPowerState, bind, this. now rewrite H. Qed.

Lemma setPowerState_Awake_resume (s : System) (entered : Time) :
  enterSuspendTime (batmon s) = Some entered ->
  exec (setPowerState Awake) s
  = let now := systemClock (world s) (systemReads (world s)) in
    let b1 := set_printSuspendStats true (set_enterSuspendTime None (batmon s)) in
    let s1 := {| batmon := b1; world := tick (world s) 1 0 |} in
    advanced s1 1 (printSteadyReads b1)
      (printText (world s1) b1
         ("Resumed from "
          ++ formatRelTime (milliseconds (to_ms (now - entered))) ++ " sleep")
         0).
Proof.
  intros H. destruct s as [b w]. cbn [batmon] in H.
  unfold exec, setPowerState, bind at 1, this. cbn [batmon]. rewrite H.
  unfold bind, Clock_now, assign, tick. projections.
  now rewrite print_spec.
Qed.

Lemma setPowerState_Hibernating (s : System) :
  setPowerState Hibernating s = (tt, s).
Proof. reflexivity. Qed.

Lemma setBatteryState_Idle (s : System) :
  exec (setBatteryState Idle) s
  = advanced s 1 (printSteadyReads (batmon s))
      (printText (world s) (batmon s) "Battery idle" 0).
Proof. unfold exec, setBatteryState. now rewrite print_spec. Qed.

Lemma setBatteryState_reset (batteryState : BatteryState) (s : System) :
  batteryState <> Idle ->
  exec (setBatteryState batteryState) s
  = let b1 := cleared (batmon s) in
    advanced (with_batmon s b1) 1 0
      (printText (world s) b1 (batteryStateMsg batteryState) 0).
Proof.
  intros H. destruct s as [b w].
  destruct batteryState; [| |congruence];
    unfold exec, setBatteryState, bind, assign, cleared, with_batmon;
    projections; now rewrite print_spec.
Qed.

Lemma setBatteryLimits_spec (empty full : float) (s : System) :
  setBatteryLimits empty full s
  = (tt, with_batmon s
           (set_energyFull (Some full) (set_energyEmpty (Some empty) (batmon s)))).
Proof. reflexivity. Qed.

(** With no field requested, a line ends right after its stamp. *)
Lemma fieldsText_none (b : BatteryMonitor) : fieldsText b 0 = endl.
Proof.
  unfold fieldsText.
  destruct (back (readings b)) as [cur|]; [|reflexivity].
  destruct (if (1 <? length (readings b))%nat then prev2 (readings b) else None);
    destruct (firstReading b); reflexivity.
Qed.

Lemma printText_none (w : World) (b : BatteryMonitor) (msg : string) :
  printText w b msg 0 = stampText w b msg ++ endl.
Proof. unfold printText. now rewrite fieldsText_none. Qed.

Lemma stored_fields (b : BatteryMonitor) (r : Reading) :
  energyEmpty (stored b r) = energyEmpty b
  /\ energyFull (stored b r) = energyFull b
  /\ firstReading (stored b r)
     = match firstReading b with Some f => Some f | None => Some r end
  /\ readings (stored b r) = push_trim (readings b) r
  /\ printSuspendStats (stored b r) = printSuspendStats b
  /\ enterSuspendTime (stored b r) = enterSuspendTime b
  /\ totalSuspendEnergy (stored b r) = totalSuspendEnergy b.
Proof. unfold stored. destruct (firstReading b) eqn:H; projections; rewrite ?H; repeat split. Qed.

Lemma accounted_fields (b : BatteryMonitor) (r : Reading) :
  energyEmpty (accounted b r) = energyEmpty b
  /\ energyFull (accounted b r) = energyFull b
  /\ firstReading (accounted b r)
     = match firstReading b with Some f => Some f | None => Some r end
  /\ readings (accounted b r) = push_trim (readings b) r
  /\ printSuspendStats (accounted b r) = printSuspendStats b
  /\ enterSuspendTime (accounted b r) = enterSuspendTime b.
Proof.
  unfold accounted.
  destruct (stored_fields b r) as (E1 & E2 & E3 & E4 & E5 & E6 & _).
  destruct (attribute_to_sleep_frame (energy r) (stored b r))
    as (A1 & A2 & A3 & A4 & A5 & A6).
  destruct (_ && _); rewrite ?A1, ?A2, ?A3, ?A4, ?A5, ?A6; auto 10.
Qed.

(** What one call does to the capacity limits. *)
Lemma limits_perform (c : Call) (s : System) :
  let b' := batmon (exec (perform c) s) in
    (energyEmpty b', energyFull b')
  = match c with
    | CallSetBatteryLimits empty full => (Some empty, Some full)
    | _ => (energyEmpty (batmon s), energyFull (batmon s))
    end.
Proof.
  destruct c as [[| |]|bs|empty full|e]; cbn [perform].
  - destruct (enterSuspendTime (batmon s)) as [t|] eqn:H.
    + now rewrite (setPowerState_Awake_resume s t H).
    + unfold exec. now rewrite setPowerState_Awake_spurious.
  - now rewrite setPowerState_Suspended.
  - reflexivity.
  - destruct bs; [ rewrite setBatteryState_reset by discriminate
                 | rewrite setBatteryState_reset by discriminate
                 | rewrite setBatteryState_Idle ]; reflexivity.
  - reflexivity.
  - destruct (isSuspended (batmon s)) eqn:H.
    + unfold exec. now rewrite updateEnergy_suspended.
    + rewrite updateEnergy_admitted by exact H.
      cbv zeta. unfold with_batmon. projections.
      destruct (accounted_fields (batmon s) (readingAt s e)) as (-> & -> & _).
      reflexivity.
Qed.

(** What one call does to the sample window. *)
Lemma readings_perform (c : Call) (s : System) :
  readings (batmon (exec (perform c) s))
  = match c with
    | CallSetBatteryState Charging | CallSetBatteryState Discharging => []
    | CallUpdateEnergy e =>
        if isSuspended (batmon s) then readings (batmon s)
        else push_trim (readings (batmon s)) (readingAt s e)
    | _ => readings (batmon s)
    end.
Proof.
  destruct c as [[| |]|bs|empty full|e]; cbn [perform].
  - destruct (enterSuspendTime (batmon s)) as [t|] eqn:H.
    + now rewrite (setPowerState_Awake_resume s t H).
    + unfold exec. now rewrite setPowerState_Awake_spurious.
  - now rewrite setPowerState_Suspended.
  - reflexivity.
  - destruct bs; [ rewrite setBatteryState_reset by discriminate
                 | rewrite setBatteryState_reset by discriminate
                 | rewrite setBatteryState_Idle ]; reflexivity.
  - reflexivity.
  - destruct (isSuspended (batmon s)) eqn:H.
    + unfold exec. now rewrite updateEnergy_suspended.
    + rewrite updateEnergy_admitted by exact H.
      cbv zeta. unfold with_batmon. projections.
      apply accounted_fields.
Qed.

(* ===================================================================== *)
(** * The capacity limits over a run *)
(* ===================================================================== *)

Lemma limits_run (cs : list Call) (s : System) :
  (energyEmpty (batmon (run cs s)), energyFull (batmon (run cs s)))
  = limitsAfter cs (energyEmpty (batmon s), energyFull (batmon s)).
Proof.
  revert s. induction cs as [|c cs IH]; intros s; [reflexivity|].
  cbn [run]. rewrite IH. pose proof (limits_perform c s) as H. cbv zeta in H.
  rewrite H. now destruct c.
Qed.

(* ===================================================================== *)
(** * C2: readings that arrive during suspension *)
(* ===================================================================== *)

(** C2. While [isSuspended()] holds, [updateEnergy(energy)] returns at once
    for every energy value: the whole system (engine, clocks, output) is as
    before, so First Reading, the Sample Window and the suspend-energy
    accumulator are unchanged and no Reading is admitted. *)
Theorem updateEnergy_suspended_discards (e : float) (s : System) :
  isSuspended (batmon s) = true ->
  updateEnergy e s = (tt, s)
  /\ firstReading (batmon (exec (updateEnergy e) s)) = firstReading (batmon s)
  /\ readings (batmon (exec (updateEnergy e) s)) = readings (batmon s)
  /\ totalSuspendEnergy (batmon (exec (updateEnergy e) s))
     = totalSuspendEnergy (batmon s).
Proof.
  intros H. unfold exec. rewrite (updateEnergy_suspended e s H). auto.
Qed.

Lemma updateEnergy_suspended_discards_witness :
  isSuspended (batmon asleep) = true
  /\ updateEnergy 49 asleep = (tt, asleep)
  /\ firstReading (batmon (exec (updateEnergy 49) asleep))
     = firstReading (batmon asleep)
  /\ readings (batmon (exec (updateEnergy 49) asleep)) = readings (batmon asleep)
  /\ totalSuspendEnergy (batmon (exec (updateEnergy 49) asleep))
     = totalSuspendEnergy (batmon asleep).
Proof.
  split; [reflexivity|].
  apply (updateEnergy_suspended_discards 49 asleep). reflexivity.
Defined.

(* ===================================================================== *)
(** * C3: what a battery-state transition resets *)
(* ===================================================================== *)

(** C3. From every state, [setBatteryState(Idle)] leaves the engine (hence
    First Reading, the Sample Window and the suspend-energy accumulator) as
    it was, while [setBatteryState(Charging)] and [setBatteryState(Discharging)]
    leave First Reading unset, the Sample Window empty and the accumulator 0. *)
Theorem setBatteryState_resets (s : System) :
  (let b' := batmon (exec (setBatteryState Idle) s) in
   b' = batmon s
   /\ firstReading b' = firstReading (batmon s)
   /\ readings b' = readings (batmon s)
   /\ totalSuspendEnergy b' = totalSuspendEnergy (batmon s))
  /\ (let b' := batmon (exec (setBatteryState Charging) s) in
      firstReading b' = None /\ readings b' = []
      /\ totalSuspendEnergy b' = 0%float)
  /\ (let b' := batmon (exec (setBatteryState Discharging) s) in
      firstReading b' = None /\ readings b' = []
      /\ totalSuspendEnergy b' = 0%float).
Proof.
  rewrite setBatteryState_Idle.
  rewrite !setBatteryState_reset by discriminate.
  cbv zeta. unfold advanced, with_batmon, cleared. projections. auto 10.
Qed.

Lemma stampText_message (w : World) (b : BatteryMonitor) (msg : string) :
  msg <> "" ->
  stampText w b msg
  = zonedTime w (Z.quot (systemClock w (systemReads w)) 1000000000)
    ++ elapsedText w b ++ " - " ++ msg.
Proof.
  intros H. unfold stampText. destruct (String.eqb_spec msg ""); congruence.
Qed.

(* ===================================================================== *)
(** * C7: resume notifications *)
(* ===================================================================== *)

(** C7. [setPowerState(Awake)] with no recorded suspend-entry time stamp
    changes nothing (engine, clocks and output are as before, so the pending
    flag is not set). With a recorded time stamp [entered] it clears the time
    stamp, sets the pending-suspend-report flag, leaves every other member
    alone and writes exactly one line: the stamp, then
    [" - Resumed from <d> sleep"] where [<d>] is the formatted duration (in
    whole milliseconds) between [entered] and the clock read of this call. *)
Theorem setPowerState_Awake_cases (s : System) :
  match enterSuspendTime (batmon s) with
  | None => setPowerState Awake s = (tt, s)
  | Some entered =>
      let s' := exec (setPowerState Awake) s in
      let now := systemClock (world s) (systemReads (world s)) in
      let stamped := systemClock (world s) (S (systemReads (world s))) in
      batmon s'
      = set_printSuspendStats true (set_enterSuspendTime None (batmon s))
      /\ enterSuspendTime (batmon s') = None
      /\ printSuspendStats (batmon s') = true
      /\ cout (world s')
         = cout (world s)
           ++ zonedTime (world s) (Z.quot stamped 1000000000)
           ++ elapsedText (world s) (batmon s)
           ++ " - Resumed from "
           ++ formatRelTime (milliseconds (to_ms (now - entered)))
           ++ " sleep" ++ endl
  end.
Proof.
  destruct (enterSuspendTime (batmon s)) as [entered|] eqn:H.
  - rewrite (setPowerState_Awake_resume s entered H). cbv zeta.
    rewrite printText_none, stampText_message by discriminate.
    unfold advanced, elapsedText, tick. projections.
    repeat split.
    rewrite !append_assoc. reflexivity.
  - now apply setPowerState_Awake_spurious.
Qed.

(* ===================================================================== *)
(** * C8: capacity limits *)
(* ===================================================================== *)

(** C8. [setBatteryLimits(empty, full)] stores both values whatever they are
    (no comparison of [full] with [empty] is made) and touches nothing else;
    a second call replaces the pair of the first; no [setBatteryState] call
    changes the stored pair; after any run the stored pair is the one of the
    last [setBatteryLimits] call; and the percentages that are printed are
    computed from the stored pair. *)
Theorem setBatteryLimits_overwrites (empty full : float) (s : System) :
  let s' := exec (setBatteryLimits empty full) s in
  setBatteryLimits empty full s
  = (tt, with_batmon s
           (set_energyFull (Some full) (set_energyEmpty (Some empty) (batmon s))))
  /\ energyEmpty (batmon s') = Some empty
  /\ energyFull (batmon s') = Some full
  /\ (forall empty0 full0,
        exec (setBatteryLimits empty full)
             (exec (setBatteryLimits empty0 full0) s) = s')
  /\ (forall batteryState,
        let b := batmon (exec (setBatteryState batteryState) s) in
        energyEmpty b = energyEmpty (batmon s)
        /\ energyFull b = energyFull (batmon s))
  /\ (forall cs,
        let b := batmon (run cs s) in
        (energyEmpty b, energyFull b)
        = limitsAfter cs (energyEmpty (batmon s), energyFull (batmon s)))
  /\ (forall cur,
        energyText (batmon s') cur
        = " - " ++ Fmt.fixed false 2 (energy cur) ++ " Wh"
          ++ " (" ++ Fmt.fixed false 2
                       (100 * (energy cur - empty) / (full - empty))%float
          ++ "%)")
  /\ (forall x,
        percentText (batmon s') x
        = " (" ++ Fmt.fixed false 2 (100 * x / (full - empty))%float ++ "%)").
Proof.
  cbv zeta. repeat split.
  - pose proof (limits_perform (CallSetBatteryState batteryState) s) as H.
    cbv zeta in H. cbn [perform] in H. congruence.
  - pose proof (limits_perform (CallSetBatteryState batteryState) s) as H.
    cbv zeta in H. cbn [perform] in H. congruence.
  - intros cs. apply limits_run.
Qed.

(* ===================================================================== *)
(** * The sample window *)
(* ===================================================================== *)

Lemma push_trim_length (l : list Reading) (r : Reading) :
  (length l <= 2)%nat ->
  (length (push_trim l r) <= 2)%nat
  /\ length (push_trim l r) = Nat.min 2 (S (length l)).
Proof.
  intros H. unfold push_trim.
  destruct l as [|a [|b [|c l]]]; cbn in *; lia.
Qed.

Lemma push_trim_last_two (l : list Reading) (r : Reading) :
  (length l <= 2)%nat -> push_trim l r = last_two (l ++ [r]).
Proof.
  intros H. unfold push_trim, last_two. rewrite length_app. cbn [length].
  destruct l as [|a [|b [|c l]]]; cbn in *; try reflexivity. lia.
Qed.

Lemma last_two_snoc_last (l : list Reading) (r : Reading) :
  last_two (l ++ [r])
  = match last l with Some a => [a; r] | None => [r] end.
Proof.
  destruct l as [|x l _] using rev_ind; [reflexivity|].
  rewrite last_snoc. unfold last_two. rewrite <- app_assoc. cbn [app].
  rewrite length_app. cbn [length].
  replace (length l + 2 - 2)%nat with (length l) by lia.
  apply drop_app_length.
Qed.

Lemma last_last_two (l : list Reading) : last (last_two l) = last l.
Proof.
  destruct l as [|x l _] using rev_ind; [reflexivity|].
  rewrite last_two_snoc_last, last_snoc. now destruct (last l).
Qed.

Lemma push_trim_cons (a : Reading) (l : list Reading) (r : Reading) :
  push_trim (a :: l) r
  = if (0 <? length l)%nat then (l ++ [r])%list else (a :: l ++ [r])%list.
Proof.
  unfold push_trim. cbn [app length tail]. rewrite length_app. cbn [length].
  rewrite Nat.add_1_r. destruct (length l) as [|n]; reflexivity.
Qed.

Lemma prev2_snoc (l : list Reading) (r : Reading) :
  l <> [] -> prev2 (l ++ [r]) = last l.
Proof.
  destruct l as [|a l]; [congruence|intros _].
  unfold prev2. rewrite length_app, last_lookup. cbn [length pred].
  replace (S (length l) + 1 - 2)%nat with (length l) by lia.
  apply lookup_app_l. cbn. lia.
Qed.

Lemma prev2_push_trim (l : list Reading) (r : Reading) :
  l <> [] -> prev2 (push_trim l r) = last l.
Proof.
  destruct l as [|a l]; [congruence|intros _].
  rewrite push_trim_cons.
  destruct (0 <? length l)%nat eqn:E.
  - destruct l as [|b l]; [discriminate|]. now rewrite prev2_snoc.
  - now apply (prev2_snoc (a :: l)).
Qed.

Lemma push_trim_two (l : list Reading) (r : Reading) :
  (2 <= length (push_trim l r))%nat <-> l <> [].
Proof.
  destruct l as [|a l]; [cbn; split; [lia|congruence]|].
  split; [congruence|intros _]. rewrite push_trim_cons.
  destruct (0 <? length l)%nat eqn:E.
  - apply Nat.ltb_lt in E. rewrite length_app. cbn [length]. lia.
  - cbn [length]. rewrite length_app. cbn [length]. lia.
Qed.

(* ===================================================================== *)
(** * C1: the delta that straddles a suspend period *)
(* ===================================================================== *)

Lemma totalSuspendEnergy_accounted (b : BatteryMonitor) (r : Reading) :
  totalSuspendEnergy (accounted b r)
  = match last (readings b) with
    | Some p =>
        if printSuspendStats b
        then (totalSuspendEnergy b + (energy r - energy p))%float
        else totalSuspendEnergy b
    | None => totalSuspendEnergy b
    end.
Proof.
  unfold accounted.
  destruct (stored_fields b r) as (_ & _ & _ & Hrs & _ & _ & Htot).
  destruct (printSuspendStats b); cbn [andb].
  - destruct (readings b) as [|a l] eqn:Hl.
    + rewrite Hrs. cbn. exact Htot.
    + assert (Hne : a :: l <> []) by discriminate.
      assert (H2 : (1 <? length (readings (stored b r)))%nat = true).
      { apply Nat.ltb_lt. rewrite Hrs. apply (push_trim_two (a :: l) r) in Hne. lia. }
      rewrite H2. unfold attribute_to_sleep.
      rewrite Hrs, (prev2_push_trim (a :: l) r Hne).
      destruct (last (a :: l)) as [p|] eqn:Hp.
      * projections. now rewrite Htot.
      * exact Htot.
  - rewrite Htot. now destruct (last (readings b)).
Qed.

(** What one call does to the suspend-energy accumulator. *)
Lemma totalSuspendEnergy_perform (c : Call) (s : System) :
  totalSuspendEnergy (batmon (exec (perform c) s))
  = match c with
    | CallSetBatteryState Charging | CallSetBatteryState Discharging => 0%float
    | CallUpdateEnergy e =>
        match last (readings (batmon s)) with
        | Some p =>
            if negb (isSuspended (batmon s)) && printSuspendStats (batmon s)
            then (totalSuspendEnergy (batmon s) + (e - energy p))%float
            else totalSuspendEnergy (batmon s)
        | None => totalSuspendEnergy (batmon s)
        end
    | _ => totalSuspendEnergy (batmon s)
    end.
Proof.
  destruct c as [[| |]|bs|empty full|e]; cbn [perform].
  - destruct (enterSuspendTime (batmon s)) as [t|] eqn:H.
    + now rewrite (setPowerState_Awake_resume s t H).
    + unfold exec. now rewrite setPowerState_Awake_spurious.
  - now rewrite setPowerState_Suspended.
  - reflexivity.
  - destruct bs; [ rewrite setBatteryState_reset by discriminate
                 | rewrite setBatteryState_reset by discriminate
                 | rewrite setBatteryState_Idle ]; reflexivity.
  - reflexivity.
  - destruct (isSuspended (batmon s)) eqn:H.
    + unfold exec. rewrite updateEnergy_suspended by exact H. cbn.
      now destruct (last (readings (batmon s))).
    + rewrite updateEnergy_admitted by exact H.
      cbv zeta. unfold with_batmon. projections.
      apply totalSuspendEnergy_accounted.
Qed.

(** What one call does to the pending-suspend-report flag. *)
Lemma printSuspendStats_perform (c : Call) (s : System) :
  printSuspendStats (batmon (exec (perform c) s))
  = match c with
    | CallSetPowerState Awake =>
        isSuspended (batmon s) || printSuspendStats (batmon s)
    | CallUpdateEnergy _ =>
        isSuspended (batmon s) && printSuspendStats (batmon s)
    | _ => printSuspendStats (batmon s)
    end.
Proof.
  destruct c as [[| |]|bs|empty full|e]; cbn [perform]; unfold isSuspended.
  - destruct (enterSuspendTime (batmon s)) as [t|] eqn:H.
    + now rewrite (setPowerState_Awake_resume s t H).
    + unfold exec. now rewrite setPowerState_Awake_spurious.
  - now rewrite setPowerState_Suspended.
  - reflexivity.
  - destruct bs; [ rewrite setBatteryState_reset by discriminate
                 | rewrite setBatteryState_reset by discriminate
                 | rewrite setBatteryState_Idle ]; reflexivity.
  - reflexivity.
  - destruct (enterSuspendTime (batmon s)) as [t|] eqn:H.
    + unfold exec. rewrite updateEnergy_suspended; [reflexivity|].
      unfold isSuspended. now rewrite H.
    + rewrite updateEnergy_admitted by (unfold isSuspended; now rewrite H).
      reflexivity.
Qed.

Lemma pending_flag_kept (c : Call) (s : System) :
  admits s c = false ->
  printSuspendStats (batmon s) = true ->
  printSuspendStats (batmon (exec (perform c) s)) = true.
Proof.
  intros Hadm Hflag. rewrite printSuspendStats_perform, Hflag.
  destruct c as [[| |]|bs|empty full|e]; cbn [admits] in Hadm;
    rewrite ?orb_true_r; try reflexivity.
  apply negb_false_iff in Hadm. now rewrite Hadm.
Qed.

(** Where the average rate is printed, and from what. *)
Lemma print_average_rate (s : System) (msg : string) (flags : StatFlags)
  (cur first : Reading) :
  flags &' averageRate = true ->
  firstReading (batmon s) = Some first ->
  back (readings (batmon s)) = Some cur ->
  (1 < length (readings (batmon s)))%nat ->
  exists pre,
    cout (world (exec (print msg flags) s))
    = cout (world s) ++ pre ++ " / Avg "
      ++ rateText (batmon s)
           (energy cur - energy first - totalSuspendEnergy (batmon s))%float
           (to_ms (relTime cur - relTime first))
      ++ endl.
Proof.
  intros Hflag Hfirst Hcur Hlen. unfold exec. rewrite print_spec.
  unfold advanced, printText, fieldsText. projections.
  apply Nat.ltb_lt in Hlen. rewrite Hcur, Hfirst, Hflag, Hlen. cbn [andb].
  unfold averageRateText.
  match goal with
  | |- exists pre, _ ++ (?st ++ (?a ++ (?b ++ (?c ++ _)))) = _ =>
      exists (st ++ a ++ b ++ c)
  end.
  rewrite !append_assoc. reflexivity.
Qed.

(** C1. When the pending-suspend-report flag is set and the engine is not
    suspended, an [updateEnergy(e)] call that leaves at least two readings in
    the Sample Window adds exactly [e - p.energy] to the suspend-energy
    accumulator, where [p] is the entry that was last in the window before
    the call (and is next to last after it). Whenever the average rate is
    printed, its energy argument is
    [current.energy - first.energy - totalSuspendEnergy]. The accumulator
    changes nowhere else: a Charging or Discharging transition zeroes it, an
    admitted reading with the flag set and a previous entry adds that
    reading's delta, and every other call leaves it alone. The flag, once
    set, stays set through every call that admits no reading. *)
Theorem suspend_delta_accounting (e : float) (s : System) :
  printSuspendStats (batmon s) = true ->
  isSuspended (batmon s) = false ->
  (2 <= length (readings (batmon (exec (updateEnergy e) s))))%nat ->
  let b := batmon s in
  let b' := batmon (exec (updateEnergy e) s) in
  (exists p,
     last (readings b) = Some p
     /\ prev2 (readings b') = Some p
     /\ totalSuspendEnergy b'
        = (totalSuspendEnergy b + (e - energy p))%float)
  /\ (forall (s0 : System) (msg : string) (flags : StatFlags)
             (cur first : Reading),
        flags &' averageRate = true ->
        firstReading (batmon s0) = Some first ->
        back (readings (batmon s0)) = Some cur ->
        (1 < length (readings (batmon s0)))%nat ->
        exists pre,
          cout (world (exec (print msg flags) s0))
          = cout (world s0) ++ pre ++ " / Avg "
            ++ rateText (batmon s0)
                 (energy cur - energy first
                  - totalSuspendEnergy (batmon s0))%float
                 (to_ms (relTime cur - relTime first))
            ++ endl)
  /\ (forall (c : Call) (s0 : System),
        totalSuspendEnergy (batmon (exec (perform c) s0))
        = match c with
          | CallSetBatteryState Charging
          | CallSetBatteryState Discharging => 0%float
          | CallUpdateEnergy e0 =>
              match last (readings (batmon s0)) with
              | Some p =>
                  if negb (isSuspended (batmon s0))
                     && printSuspendStats (batmon s0)
                  then (totalSuspendEnergy (batmon s0) + (e0 - energy p))%float
                  else totalSuspendEnergy (batmon s0)
              | None => totalSuspendEnergy (batmon s0)
              end
          | _ => totalSuspendEnergy (batmon s0)
          end)
  /\ (forall (c : Call) (s0 : System),
        admits s0 c = false ->
        printSuspendStats (batmon s0) = true ->
        printSuspendStats (batmon (exec (perform c) s0)) = true).
Proof.
  intros Hflag Hawake Hlen. cbv zeta.
  split; [|split; [apply print_average_rate
                  |split; [apply totalSuspendEnergy_perform
                          |apply pending_flag_kept]]].
  pose proof (readings_perform (CallUpdateEnergy e) s) as Hrs.
  pose proof (totalSuspendEnergy_perform (CallUpdateEnergy e) s) as Htot.
  cbn [perform] in Hrs, Htot. rewrite Hawake in Hrs. rewrite Hawake, Hflag in Htot.
  rewrite Hrs in Hlen. apply push_trim_two in Hlen.
  destruct (last (readings (batmon s))) as [p|] eqn:Hp.
  - exists p. rewrite Hrs, prev2_push_trim by exact Hlen. auto.
  - apply last_None in Hp. congruence.
Qed.

Lemma suspend_delta_accounting_witness :
  printSuspendStats (batmon resumed) = true
  /\ isSuspended (batmon resumed) = false
  /\ (2 <= length (readings (batmon (exec (updateEnergy 49) resumed))))%nat
  /\ totalSuspendEnergy (batmon (exec (updateEnergy 49) resumed))
     = (totalSuspendEnergy (batmon resumed) + (49 - 50))%float.
Proof.
  assert (H1 : printSuspendStats (batmon resumed) = true) by reflexivity.
  assert (H2 : isSuspended (batmon resumed) = false) by reflexivity.
  assert (H3 : (2 <= length (readings (batmon (exec (updateEnergy 49) resumed))))%nat)
    by (vm_compute; lia).
  split; [exact H1 | split; [exact H2 | split; [exact H3 |]]].
  destruct (suspend_delta_accounting 49 resumed H1 H2 H3) as [[p [Hp [_ Ht]]] _].
  vm_compute in Hp. injection Hp as <-. exact Ht.
Defined.

(* ===================================================================== *)
(** * C4: the Sample Window holds the last two admitted readings *)
(* ===================================================================== *)

(** What one call does to the suspend-entry time stamp. *)
Lemma enterSuspendTime_perform (c : Call) (s : System) :
  enterSuspendTime (batmon (exec (perform c) s))
  = match c with
    | CallSetPowerState Suspended =>
        Some (systemClock (world s) (systemReads (world s)))
    | CallSetPowerState Awake => None
    | _ => enterSuspendTime (batmon s)
    end.
Proof.
  destruct c as [[| |]|bs|empty full|e]; cbn [perform].
  - destruct (enterSuspendTime (batmon s)) as [t|] eqn:H.
    + now rewrite (setPowerState_Awake_resume s t H).
    + unfold exec. now rewrite setPowerState_Awake_spurious.
  - now rewrite setPowerState_Suspended.
  - reflexivity.
  - destruct bs; [ rewrite setBatteryState_reset by discriminate
                 | rewrite setBatteryState_reset by discriminate
                 | rewrite setBatteryState_Idle ]; reflexivity.
  - reflexivity.
  - destruct (isSuspended (batmon s)) eqn:H.
    + unfold exec. now rewrite updateEnergy_suspended.
    + rewrite updateEnergy_admitted by exact H.
      cbv zeta. unfold with_batmon. projections.
      apply accounted_fields.
Qed.

Lemma readings_bounded_perform (c : Call) (s : System) :
  (length (readings (batmon s)) <= 2)%nat ->
  (length (readings (batmon (exec (perform c) s))) <= 2)%nat.
Proof.
  intros H. rewrite readings_perform.
  destruct c as [p|[| |]|empty full|e]; cbn [length]; try lia.
  destruct (isSuspended (batmon s)); [exact H|].
  now apply push_trim_length.
Qed.

Lemma readings_bounded_run (cs : list Call) (s : System) :
  (length (readings (batmon s)) <= 2)%nat ->
  (length (readings (batmon (run cs s))) <= 2)%nat.
Proof.
  revert s. induction cs as [|c cs IH]; intros s H; [exact H|].
  cbn [run]. apply IH. now apply readings_bounded_perform.
Qed.

Lemma last_two_idem (l : list Reading) : last_two (last_two l) = last_two l.
Proof.
  destruct l as [|x l _] using rev_ind; [reflexivity|].
  rewrite last_two_snoc_last. now destruct (last l).
Qed.

Lemma last_app_last_two (l k : list Reading) :
  last (last_two l ++ k) = last (l ++ k).
Proof.
  destruct k as [|x k _] using rev_ind.
  - rewrite !app_nil_r. apply last_last_two.
  - now rewrite !app_assoc, !last_snoc.
Qed.

Lemma last_two_app (l k : list Reading) :
  last_two (last_two l ++ k) = last_two (l ++ k).
Proof.
  destruct k as [|x k _] using rev_ind.
  - rewrite !app_nil_r. apply last_two_idem.
  - now rewrite !app_assoc, !last_two_snoc_last, last_app_last_two.
Qed.

Lemma updateEnergy_run (es : list float) (s : System) :
  isSuspended (batmon s) = false ->
  (length (readings (batmon s)) <= 2)%nat ->
  readings (batmon (run (map CallUpdateEnergy es) s))
  = last_two (readings (batmon s) ++ admittedReadings es s)
  /\ map energy (admittedReadings es s) = es.
Proof.
  revert s. induction es as [|e es IH]; intros s Hawake Hlen.
  - cbn. rewrite app_nil_r. split; [|reflexivity].
    unfold last_two. now replace (length (readings (batmon s)) - 2)%nat with 0%nat by lia.
  - cbn [map run admittedReadings perform].
    pose proof (readings_perform (CallUpdateEnergy e) s) as Hrs.
    pose proof (enterSuspendTime_perform (CallUpdateEnergy e) s) as Hsusp.
    cbn [perform] in Hrs, Hsusp. rewrite Hawake in Hrs.
    destruct (IH (exec (updateEnergy e) s)) as [IH1 IH2].
    + unfold isSuspended in *. now rewrite Hsusp.
    + rewrite Hrs. now apply push_trim_length.
    + rewrite IH1, IH2, Hrs, push_trim_last_two by exact Hlen.
      split; [|reflexivity].
      rewrite last_two_app, <- app_assoc. reflexivity.
Qed.

(** C4. Whatever entry points are called on a fresh engine, the Sample Window
    never holds more than two readings. From any state so reached in which
    the engine is not suspended, a sequence of [updateEnergy] calls leaves in
    the window exactly the last two elements (or fewer, if there are fewer)
    of the old window followed by the admitted readings in arrival order,
    oldest first; and one admitted reading is inserted by appending it and
    then dropping the front element if more than two are held. *)
Theorem sample_window_last_two (w : World) (cs : list Call) :
  let s := run cs (boot w) in
  (length (readings (batmon s)) <= 2)%nat
  /\ (forall es : list float,
        isSuspended (batmon s) = false ->
        readings (batmon (run (map CallUpdateEnergy es) s))
        = last_two (readings (batmon s) ++ admittedReadings es s)
        /\ map energy (admittedReadings es s) = es)
  /\ (forall e : float,
        isSuspended (batmon s) = false ->
        readings (batmon (exec (updateEnergy e) s))
        = let l' := (readings (batmon s) ++ [readingAt s e])%list in
          if (2 <? length l')%nat then tail l' else l').
Proof.
  cbv zeta.
  assert (Hlen : (length (readings (batmon (run cs (boot w)))) <= 2)%nat).
  { apply readings_bounded_run. cbn. lia. }
  split; [exact Hlen|]. split.
  - intros es Hawake. now apply updateEnergy_run.
  - intros e Hawake.
    pose proof (readings_perform (CallUpdateEnergy e) (run cs (boot w))) as Hrs.
    cbn [perform] in Hrs. now rewrite Hawake in Hrs.
Qed.

Lemma sample_window_last_two_witness :
  map energy
    (readings
       (batmon
          (run (map CallUpdateEnergy [48; 47; 46]%float)
               (run [CallUpdateEnergy 50; CallSetBatteryState Idle]
                    (boot demoWorld)))))
  = [47; 46]%float.
Proof.
  destruct (sample_window_last_two demoWorld
              [CallUpdateEnergy 50; CallSetBatteryState Idle])
    as (_ & H & _).
  destruct (H [48; 47; 46]%float eq_refl) as [-> _].
  reflexivity.
Defined.

(* ===================================================================== *)
(** * C5: the rate formula *)
(* ===================================================================== *)

Lemma msPerHour_value : msPerHour = 3600000%float.
Proof. vm_compute. reflexivity. Qed.

(** C5. For every energy delta and every duration in milliseconds (positive
    or not), [printRate] writes the watts, [energyDiff / (ms / 3600000)],
    with two decimals and [" W"]; when both capacity limits are set it then
    writes the percent per hour, [(100 * energyDiff / (full - empty)) / hours],
    with one decimal as ["%/hr"] if its absolute value is at least 1.0, and
    otherwise 24 times that value with one decimal as ["%/day"]. With limits
    0 and 100, a delta of 2.5 Wh over one hour is written
    ["2.50 W (2.5%/hr)"], and over ten hours ["0.25 W (6.0%/day)"]. *)
Theorem printRate_formula (energyDiff : float) (timeDiff : Z) (s : System) :
  let hours := (double_of_Z timeDiff / 3600000)%float in
  let watts := (energyDiff / hours)%float in
  printRate energyDiff timeDiff s
  = (tt,
     advanced s 0 0
       (Fmt.fixed false 2 watts ++ " W"
        ++ match energyEmpty (batmon s), energyFull (batmon s) with
           | Some empty, Some full =>
               let percentPerHour :=
                 ((100 * energyDiff / (full - empty)) / hours)%float in
               if (1 <=? abs percentPerHour)%float
               then " (" ++ Fmt.fixed false 1 percentPerHour ++ "%/hr)"
               else " (" ++ Fmt.fixed false 1 (percentPerHour * 24)%float
                    ++ "%/day)"
           | _, _ => ""
           end))
  /\ cout (world (exec (printRate 2.5 3600000)
                       (exec (setBatteryLimits 0 100) s)))
     = cout (world s) ++ "2.50 W (2.5%/hr)"
  /\ cout (world (exec (printRate 2.5 36000000)
                       (exec (setBatteryLimits 0 100) s)))
     = cout (world s) ++ "0.25 W (6.0%/day)".
Proof.
  cbv zeta. rewrite <- msPerHour_value. split; [apply printRate_spec|].
  unfold exec. rewrite !printRate_spec, setBatteryLimits_spec.
  unfold advanced, with_batmon. projections.
  split; f_equal; vm_compute; reflexivity.
Qed.

(* ===================================================================== *)
(** * C6: the relative-duration formatter *)
(* ===================================================================== *)

Lemma formatRelTime_tokens (duration : Duration) :
  let total := to_seconds duration in
  let hours := Z.quot total 3600 in
  let mins := Z.quot total 60 - 60 * hours in
  let secs := total - 3600 * hours - 60 * mins in
  formatRelTime duration
  = unit_token hours "h" ++ unit_token mins "m" ++ unit_token secs "s".
Proof.
  cbv zeta. unfold formatRelTime, unit_token.
  destruct (to_seconds duration =? 0) eqn:E.
  - apply Z.eqb_eq in E. rewrite E. reflexivity.
  - destruct (0 <? _); destruct (0 <? _); destruct (0 <? _);
      rewrite ?append_assoc, ?append_nil_r; reflexivity.
Qed.

Lemma decomposition_nonneg (total : Z) :
  0 <= total ->
  0 <= Z.quot total 3600
  /\ 0 <= Z.quot total 60 - 60 * Z.quot total 3600
  /\ 0 <= total - 3600 * Z.quot total 3600
          - 60 * (Z.quot total 60 - 60 * Z.quot total 3600).
Proof.
  intros H. rewrite !Z.quot_div_nonneg by lia.
  pose proof (Z.div_mod total 3600 ltac:(lia)) as H1.
  pose proof (Z.mod_pos_bound total 3600 ltac:(lia)) as H2.
  pose proof (Z.div_mod total 60 ltac:(lia)) as H3.
  pose proof (Z.mod_pos_bound total 60 ltac:(lia)) as H4.
  pose proof (Z.div_pos total 3600 H ltac:(lia)) as H5.
  lia.
Qed.

Lemma decomposition_nonpos (total : Z) :
  total <= 0 ->
  Z.quot total 3600 <= 0
  /\ Z.quot total 60 - 60 * Z.quot total 3600 <= 0
  /\ total - 3600 * Z.quot total 3600
     - 60 * (Z.quot total 60 - 60 * Z.quot total 3600) <= 0.
Proof.
  intros H.
  pose proof (decomposition_nonneg (- total) ltac:(lia)) as H'.
  rewrite !Z.quot_opp_l in H' by lia. lia.
Qed.

Lemma unit_token_nonneg (n : Z) (letter : string) :
  0 <= n -> unit_token n letter = spec_unit_token n letter.
Proof.
  intros H. unfold unit_token, spec_unit_token.
  destruct (Z.ltb_spec 0 n), (Z.eqb_spec n 0); try reflexivity; lia.
Qed.

Lemma unit_token_nonpos (n : Z) (letter : string) :
  n <= 0 -> unit_token n letter = "".
Proof.
  intros H. unfold unit_token. destruct (Z.ltb_spec 0 n); [lia|reflexivity].
Qed.

(** C6 (as the code has it). [formatRelTime] truncates the duration to whole
    seconds, splits them into hours, minutes and remaining seconds, and
    concatenates, in the order h, m, s and with no separator, the token of
    every unit whose count is positive. For a duration that is not negative
    these are exactly the nonzero units, as section 4.2 describes; a zero
    duration and every negative duration give the empty string. 0 s gives
    [""], 3661 s ["1h1m1s"], 90 s ["1m30s"], 45 s ["45s"]. *)
Theorem formatRelTime_positive_units (duration : Duration) :
  let total := to_seconds duration in
  let hours := Z.quot total 3600 in
  let mins := Z.quot total 60 - 60 * hours in
  let secs := total - 3600 * hours - 60 * mins in
  formatRelTime duration
  = (if 0 <? hours then Fmt.int hours ++ "h" else "")
    ++ (if 0 <? mins then Fmt.int mins ++ "m" else "")
    ++ (if 0 <? secs then Fmt.int secs ++ "s" else "")
  /\ (0 <= total -> formatRelTime duration = spec_formatRelTime duration)
  /\ (total <= 0 -> formatRelTime duration = "")
  /\ formatRelTime (seconds 0) = ""
  /\ formatRelTime (seconds 3661) = "1h1m1s"
  /\ formatRelTime (seconds 90) = "1m30s"
  /\ formatRelTime (seconds 45) = "45s".
Proof.
  cbv zeta. split; [apply formatRelTime_tokens|].
  split; [|split; [|repeat split]].
  - intros H. pose proof (formatRelTime_tokens duration) as E. cbv zeta in E.
    rewrite E. unfold spec_formatRelTime.
    destruct (decomposition_nonneg _ H) as (Hh & Hm & Hs).
    now rewrite !unit_token_nonneg.
  - intros H. pose proof (formatRelTime_tokens duration) as E. cbv zeta in E.
    rewrite E. destruct (decomposition_nonpos _ H) as (Hh & Hm & Hs).
    now rewrite !unit_token_nonpos.
Qed.

(** C6, as stated, fails on a negative duration (the system clock may be set
    back while the machine sleeps): -90 s has the nonzero units -1 m and
    -30 s, yet the code writes nothing. *)
Lemma formatRelTime_negative_counterexample :
  formatRelTime (seconds (-90)) = ""
  /\ spec_formatRelTime (seconds (-90)) = "-1m-30s".
Proof. split; vm_compute; reflexivity. Qed.

(* ===================================================================== *)
(** * C9: the translation of property notifications *)
(* ===================================================================== *)

Lemma run_app (cs cs' : list Call) (s : System) :
  run (cs ++ cs') s = run cs' (run cs s).
Proof. revert s. induction cs as [|c cs IH]; intros s; [reflexivity|apply IH]. Qed.

Lemma returning_spec (c : M unit) (s : System) :
  returning c s = (Returned, exec c s).
Proof. unfold returning, bind, exec, ret. now destruct (c s). Qed.

Lemma andThen_returned (c k : M Outcome) (s s' : System) :
  c s = (Returned, s') -> andThen c k s = k s'.
Proof. intros H. unfold andThen, bind. now rewrite H. Qed.

(** C9 (as the code has it). For every notification whose values have the
    declared types, [processBatteryProperties] returns normally and is the
    run of: [setBatteryState] with Charging for State 1, Discharging for 2,
    Idle for 4 and 5, and no call for another code or an absent State; then
    [setBatteryLimits(EnergyEmpty, EnergyFull)] when both are present; then
    [updateEnergy(Energy)] when it is present. The calls are made in this
    fixed order, whatever the order of the properties in the notification. *)
Theorem processBatteryProperties_calls
  (properties : UPowerDeviceProperties) (s : System) :
  well_typed properties = true ->
  processBatteryProperties properties s
  = (Returned,
     run (match properties !! "State" with
          | Some (PUint32 1) => [CallSetBatteryState Charging]
          | Some (PUint32 2) => [CallSetBatteryState Discharging]
          | Some (PUint32 4) | Some (PUint32 5) => [CallSetBatteryState Idle]
          | _ => []
          end
          ++ match properties !! "EnergyEmpty", properties !! "EnergyFull" with
             | Some (PDouble empty), Some (PDouble full) =>
                 [CallSetBatteryLimits empty full]
             | _, _ => []
             end
          ++ match properties !! "Energy" with
             | Some (PDouble e) => [CallUpdateEnergy e]
             | _ => []
             end)%list s).
Proof.
  intros Hwt. unfold well_typed in Hwt.
  apply andb_prop in Hwt as [Hwt HE]. apply andb_prop in Hwt as [Hwt HF].
  apply andb_prop in Hwt as [HS HEm].
  change (processBatteryProperties properties s
          = (Returned,
             run (stateCalls properties ++ limitsCalls properties
                  ++ energyCalls properties) s)).
  rewrite !run_app. unfold processBatteryProperties.
  match goal with
  | |- andThen ?c _ s = _ =>
      assert (H1 : c s = (Returned, run (stateCalls properties) s))
  end.
  { unfold stateCalls.
    destruct (properties !! "State") as [[]|]; try discriminate HS;
      [|reflexivity].
    cbn [get_uint32].
    destruct (Z.eqb_spec v 1) as [->|]; [apply returning_spec|].
    destruct (Z.eqb_spec v 2) as [->|]; [apply returning_spec|].
    destruct (Z.eqb_spec v 4) as [->|]; [apply returning_spec|].
    destruct (Z.eqb_spec v 5) as [->|]; [apply returning_spec|].
    cbn [orb]. unfold ret.
    destruct v as [|[[[]|[]|]|[[]|[]|]|]|]; try reflexivity; congruence. }
  rewrite (andThen_returned _ _ _ _ H1). clear H1.
  generalize (run (stateCalls properties) s). intros s1.
  match goal with
  | |- andThen ?c _ s1 = _ =>
      assert (H2 : c s1 = (Returned, run (limitsCalls properties) s1))
  end.
  { unfold limitsCalls.
    destruct (properties !! "EnergyEmpty") as [[]|]; try discriminate HEm;
      [|reflexivity].
    cbn [get_double].
    destruct (properties !! "EnergyFull") as [[]|]; try discriminate HF;
      [|reflexivity].
    cbn [get_double]. apply returning_spec. }
  rewrite (andThen_returned _ _ _ _ H2). clear H2.
  generalize (run (limitsCalls properties) s1). intros s2.
  unfold energyCalls.
  destruct (properties !! "Energy") as [[]|]; try discriminate HE;
    [|reflexivity].
  cbn [get_double]. apply returning_spec.
Qed.

Lemma processBatteryProperties_calls_witness :
  well_typed (list_to_map energyThenState) = true
  /\ cout (world (snd (processBatteryProperties (list_to_map energyThenState)
                         (boot demoWorld))))
     = cout (world (run [CallSetBatteryState Discharging; CallUpdateEnergy 50]
                        (boot demoWorld))).
Proof.
  split; [vm_compute; reflexivity|].
  rewrite (processBatteryProperties_calls (list_to_map energyThenState)
             (boot demoWorld));
    vm_compute; reflexivity.
Defined.

(** C9, as stated, fails on the order of the calls: for a notification that
    lists "Energy" before "State" (code 2), forwarding in the order of
    appearance would admit the reading and then reset, leaving the Sample
    Window empty; the code resets first and then admits the reading. *)
Lemma processBatteryProperties_order_counterexample :
  spec_forward_in_order energyThenState energyThenState
  = [CallUpdateEnergy 50; CallSetBatteryState Discharging]
  /\ length (readings (batmon (run (spec_forward_in_order energyThenState
                                      energyThenState) (boot demoWorld))))
     = 0%nat
  /\ fst (processBatteryProperties (list_to_map energyThenState)
            (boot demoWorld)) = Returned
  /\ length (readings (batmon (snd (processBatteryProperties
                                      (list_to_map energyThenState)
                                      (boot demoWorld)))))
     = 1%nat
  /\ cout (world (snd (processBatteryProperties (list_to_map energyThenState)
                         (boot demoWorld))))
     = "@1700000000 - Battery discharging" ++ endl
       ++ "@1700000002 (+1s) - 50.00 Wh" ++ endl.
Proof. repeat split; vm_compute; reflexivity. Qed.

(* ===================================================================== *)
(** * C10: a reset between a suspend and the next admitted reading *)
(* ===================================================================== *)

(** What one call does to First Reading. *)
Lemma firstReading_perform (c : Call) (s : System) :
  firstReading (batmon (exec (perform c) s))
  = match c with
    | CallSetBatteryState Charging | CallSetBatteryState Discharging => None
    | CallUpdateEnergy e =>
        if isSuspended (batmon s) then firstReading (batmon s)
        else match firstReading (batmon s) with
             | Some f => Some f
             | None => Some (readingAt s e)
             end
    | _ => firstReading (batmon s)
    end.
Proof.
  destruct c as [[| |]|bs|empty full|e]; cbn [perform].
  - destruct (enterSuspendTime (batmon s)) as [t|] eqn:H.
    + now rewrite (setPowerState_Awake_resume s t H).
    + unfold exec. now rewrite setPowerState_Awake_spurious.
  - now rewrite setPowerState_Suspended.
  - reflexivity.
  - destruct bs; [ rewrite setBatteryState_reset by discriminate
                 | rewrite setBatteryState_reset by discriminate
                 | rewrite setBatteryState_Idle ]; reflexivity.
  - reflexivity.
  - destruct (isSuspended (batmon s)) eqn:H.
    + unfold exec. now rewrite updateEnergy_suspended.
    + rewrite updateEnergy_admitted by exact H.
      cbv zeta. unfold with_batmon. projections.
      apply accounted_fields.
Qed.

Lemma blank_kept (c : Call) (s : System) :
  admits s c = false -> blank (batmon s) -> blank (batmon (exec (perform c) s)).
Proof.
  intros Hadm (Hf & Hr & Ht). unfold blank.
  rewrite firstReading_perform, readings_perform, totalSuspendEnergy_perform.
  rewrite Hf, Hr, Ht.
  destruct c as [p|[| |]|empty full|e]; cbn [admits] in Hadm; auto.
  apply negb_false_iff in Hadm. rewrite Hadm. cbn. auto.
Qed.

Lemma blank_kept_run (cs : list Call) (s : System) :
  admitsNone cs s = true -> blank (batmon s) -> blank (batmon (run cs s)).
Proof.
  revert s. induction cs as [|c cs IH]; intros s Hadm Hb; [exact Hb|].
  cbn [admitsNone] in Hadm. apply andb_prop in Hadm as [H1 H2].
  apply negb_true_iff in H1. cbn [run]. apply IH; [exact H2|].
  now apply blank_kept.
Qed.

Lemma blank_after_reset (batteryState : BatteryState) (s : System) :
  resets batteryState = true ->
  blank (batmon (exec (setBatteryState batteryState) s)).
Proof.
  intros H. unfold blank.
  pose proof (firstReading_perform (CallSetBatteryState batteryState) s) as H1.
  pose proof (readings_perform (CallSetBatteryState batteryState) s) as H2.
  pose proof (totalSuspendEnergy_perform (CallSetBatteryState batteryState) s) as H3.
  cbn [perform] in H1, H2, H3.
  destruct batteryState; try discriminate H; auto.
Qed.

Lemma sleep_pending_kept (c : Call) (s : System) :
  admits s c = false ->
  sleep_pending (batmon s) = true ->
  sleep_pending (batmon (exec (perform c) s)) = true.
Proof.
  unfold sleep_pending, isSuspended. intros Hadm H.
  rewrite enterSuspendTime_perform, printSuspendStats_perform.
  unfold isSuspended.
  destruct c as [[| |]|bs|empty full|e]; cbn [admits] in Hadm; try exact H.
  - reflexivity.
  - apply negb_false_iff in Hadm. unfold isSuspended in Hadm.
    destruct (enterSuspendTime (batmon s)); [reflexivity|discriminate].
Qed.

Lemma sleep_pending_kept_run (cs : list Call) (s : System) :
  admitsNone cs s = true ->
  sleep_pending (batmon s) = true ->
  sleep_pending (batmon (run cs s)) = true.
Proof.
  revert s. induction cs as [|c cs IH]; intros s Hadm Hb; [exact Hb|].
  cbn [admitsNone] in Hadm. apply andb_prop in Hadm as [H1 H2].
  apply negb_true_iff in H1. cbn [run]. apply IH; [exact H2|].
  now apply sleep_pending_kept.
Qed.

Lemma admitsNone_app (cs cs' : list Call) (s : System) :
  admitsNone (cs ++ cs') s = admitsNone cs s && admitsNone cs' (run cs s).
Proof.
  revert s. induction cs as [|c cs IH]; intros s; [reflexivity|].
  cbn [app admitsNone run]. now rewrite IH, andb_assoc.
Qed.

(** An admitted reading that finds the engine blank and the report pending:
    the summary is written without any field, the flag is consumed and the
    accumulator keeps its value. *)
Lemma updateEnergy_blank_pending (e : float) (s : System) :
  isSuspended (batmon s) = false ->
  printSuspendStats (batmon s) = true ->
  blank (batmon s) ->
  let s' := exec (updateEnergy e) s in
  let w := world s in
  let runTimeStr :=
    formatRelTime
      (nanoseconds (steadyClock w (S (steadyReads w))
                    - steadyClock w (steadyReads w))) in
  cout (world s')
  = cout w
    ++ zonedTime w (Z.quot (systemClock w (S (systemReads w))) 1000000000)
    ++ (if String.eqb runTimeStr "" then "" else " (+" ++ runTimeStr ++ ")")
    ++ " - Sleep energy use" ++ endl
  /\ printSuspendStats (batmon s') = false
  /\ firstReading (batmon s') = Some (readingAt s e)
  /\ readings (batmon s') = [readingAt s e]
  /\ totalSuspendEnergy (batmon s') = totalSuspendEnergy (batmon s).
Proof.
  intros Hawake Hflag (Hf & Hr & Ht). cbv zeta.
  rewrite updateEnergy_admitted by exact Hawake. cbv zeta.
  unfold accounted, stored, updateEnergy_msg, updateEnergy_flags.
  rewrite Hf, Hr, Hflag.
  destruct s as [b w]. projections. cbn [push_trim app length Nat.ltb Nat.leb andb].
  unfold with_batmon, advanced, printText, stampText, elapsedText, fieldsText,
    tick, readingAt.
  projections. cbn [back last length Nat.ltb Nat.leb].
  repeat split.
  rewrite !append_assoc. reflexivity.
Qed.

(** C10. A Charging or Discharging reset leaves the pending-suspend-report
    flag and the suspend-entry time stamp as they were. Hence, when such a
    reset falls between a suspend and the first reading admitted afterwards
    (no call in between admits a reading, and the engine is awake again when
    that reading arrives), the flag is set when the reading arrives; the
    reading writes the ["Sleep energy use"] line, with no energy or rate
    field, and clears the flag; the Sample Window then holds that reading
    alone, and the suspend-energy accumulator keeps its value. *)
Theorem reset_drops_suspend_delta
  (s : System) (before after : list Call) (batteryState : BatteryState)
  (e : float) :
  resets batteryState = true ->
  let s1 := exec (setPowerState Suspended) s in
  let between := (before ++ CallSetBatteryState batteryState :: after)%list in
  admitsNone between s1 = true ->
  let s2 := run between s1 in
  isSuspended (batmon s2) = false ->
  let s3 := exec (updateEnergy e) s2 in
  let w := world s2 in
  let runTimeStr :=
    formatRelTime
      (nanoseconds (steadyClock w (S (steadyReads w))
                    - steadyClock w (steadyReads w))) in
  (forall s0 : System,
     let b := batmon (exec (setBatteryState batteryState) s0) in
     printSuspendStats b = printSuspendStats (batmon s0)
     /\ enterSuspendTime b = enterSuspendTime (batmon s0))
  /\ printSuspendStats (batmon s2) = true
  /\ cout (world s3)
     = cout w
       ++ zonedTime w (Z.quot (systemClock w (S (systemReads w))) 1000000000)
       ++ (if String.eqb runTimeStr "" then "" else " (+" ++ runTimeStr ++ ")")
       ++ " - Sleep energy use" ++ endl
  /\ printSuspendStats (batmon s3) = false
  /\ readings (batmon s3) = [readingAt s2 e]
  /\ totalSuspendEnergy (batmon s3) = totalSuspendEnergy (batmon s2).
Proof.
  intros Hreset s1 between Hnone s2 Hawake. cbv zeta.
  assert (Hpending : printSuspendStats (batmon s2) = true).
  { assert (H : sleep_pending (batmon s2) = true).
    { apply sleep_pending_kept_run; [exact Hnone|].
      unfold sleep_pending, isSuspended, s1.
      pose proof (enterSuspendTime_perform (CallSetPowerState Suspended) s) as E.
      cbn [perform] in E. now rewrite E. }
    unfold sleep_pending in H. now rewrite Hawake in H. }
  assert (Hblank : blank (batmon s2)).
  { unfold s2, between. rewrite run_app. cbn [run perform].
    unfold between in Hnone. rewrite admitsNone_app in Hnone.
    apply andb_prop in Hnone as [_ Hnone]. cbn [admitsNone] in Hnone.
    apply andb_prop in Hnone as [_ Hnone].
    apply blank_kept_run; [exact Hnone|]. now apply blank_after_reset. }
  split.
  { intros s0.
    pose proof (printSuspendStats_perform (CallSetBatteryState batteryState) s0).
    pose proof (enterSuspendTime_perform (CallSetBatteryState batteryState) s0).
    auto. }
  split; [exact Hpending|].
  destruct (updateEnergy_blank_pending e s2 Hawake Hpending Hblank)
    as (H1 & H2 & _ & H4 & H5).
  auto.
Qed.

(** One reading, then suspend, a Discharging transition, and resume. *)
Lemma reset_drops_suspend_delta_witness :
  resets Discharging = true
  /\ admitsNone ([] ++ CallSetBatteryState Discharging
                       :: [CallSetPowerState Awake])
       (exec (setPowerState Suspended)
             (run [CallUpdateEnergy 50] (boot demoWorld))) = true
  /\ totalSuspendEnergy
       (batmon
          (exec (updateEnergy 49)
             (run ([] ++ CallSetBatteryState Discharging
                         :: [CallSetPowerState Awake])
                (exec (setPowerState Suspended)
                      (run [CallUpdateEnergy 50] (boot demoWorld))))))
     = 0%float.
Proof.
  split; [reflexivity|]. split; [vm_compute; reflexivity|].
  destruct (reset_drops_suspend_delta
              (run [CallUpdateEnergy 50] (boot demoWorld)) []
              [CallSetPowerState Awake] Discharging 49)
    as (_ & _ & _ & _ & _ & H); [reflexivity | vm_compute; reflexivity | vm_compute; reflexivity |].
  rewrite H. vm_compute. reflexivity.
Defined.

(* ===================================================================== *)
(** * Worked scenarios *)
(* ===================================================================== *)

(** Energy 50 with limits 0 and 100 and no previous reading: the line shows
    the energy and its percentage, and neither a delta nor a rate. *)
Example first_reading_line :
  cout (world (run [CallSetBatteryLimits 0 100; CallUpdateEnergy 50]
                   (boot demoWorld)))
  = "@1700000001 (+1s) - 50.00 Wh (50.00%)" ++ endl.
Proof. vm_compute. reflexivity. Qed.

(** A suspend of 90 seconds, then a reading 5 seconds after the resume that
    is 1 Wh higher than the one before the suspend: the resume line shows
    ["1m30s"], and the summary shows the delta and the rate only. *)
Example suspend_ninety_seconds :
  cout (world (run [CallUpdateEnergy 50; CallSetPowerState Suspended;
                    CallSetPowerState Awake; CallUpdateEnergy 51]
                   (boot ninetySeconds)))
  = "@1700000001 (+1s) - 50.00 Wh" ++ endl
    ++ "@1700000010 (+10s) - Going to sleep" ++ endl
    ++ "@1700000100 (+1m40s) - Resumed from 1m30s sleep" ++ endl
    ++ "@1700000105 (+1m45s) - Sleep energy use - +1.00 Wh / Rate 34.29 W"
    ++ endl.
Proof. vm_compute. reflexivity. Qed.

(* ********************************************************************* *)
(** * Further properties of the code *)
(* ********************************************************************* *)

(* ===================================================================== *)
(** * [StatFlags] *)
(* ===================================================================== *)

Lemma to_underlying_land (a s : Stat) :
  Z.land (to_underlying s) (to_underlying a)
  = if Stat_eqb a s then to_underlying a else 0.
Proof. destruct a, s; reflexivity. Qed.

Lemma to_underlying_nonzero (a : Stat) : (to_underlying a =? 0) = false.
Proof. now destruct a. Qed.

(** X1. The flag operators behave as a set of [Stat] values: the default
    [StatFlags] holds none, the flags made from one value hold exactly that
    value, and [flags | s] holds [s] and whatever [flags] held, for every
    32-bit (indeed every integer) value of [flags]. *)
Theorem StatFlags_membership (flags : StatFlags) (s a : Stat) :
  (0 &' a) = false
  /\ (StatFlags_of s &' a) = Stat_eqb a s
  /\ ((flags |' s) &' a) = (flags &' a) || Stat_eqb a s.
Proof.
  unfold StatFlags_has, StatFlags_or, StatFlags_of.
  split; [reflexivity|]. split.
  - rewrite to_underlying_land.
    destruct (Stat_eqb a s); [now rewrite to_underlying_nonzero|reflexivity].
  - rewrite Z.land_lor_distr_l, to_underlying_land.
    destruct (Stat_eqb a s).
    + rewrite orb_true_r.
      destruct (Z.eqb_spec (Z.lor (Z.land flags (to_underlying a)) (to_underlying a)) 0)
        as [E|]; [|reflexivity].
      apply Z.lor_eq_0_iff in E as [_ E]. now destruct a.
    + now rewrite Z.lor_0_r, orb_false_r.
Qed.

(* ===================================================================== *)
(** * [formatRelTime] *)
(* ===================================================================== *)

Lemma append_empty_r (s t : string) : s ++ t = "" -> t = "".
Proof. destruct s; [trivial|discriminate]. Qed.

Lemma append_empty_l (s t : string) : s ++ t = "" -> s = "".
Proof. destruct s; [trivial|discriminate]. Qed.

Lemma unit_token_positive (n : Z) (letter : string) :
  0 < n -> letter <> "" -> unit_token n letter <> "".
Proof.
  intros Hn Hl. unfold unit_token.
  destruct (Z.ltb_spec 0 n); [|lia].
  intros E. now apply append_empty_r in E.
Qed.

Lemma decomposition_range (total : Z) :
  0 <= total ->
  let hours := Z.quot total 3600 in
  let mins := Z.quot total 60 - 60 * hours in
  let secs := total - 3600 * hours - 60 * mins in
  0 <= hours /\ 0 <= mins < 60 /\ 0 <= secs < 60
  /\ 3600 * hours + 60 * mins + secs = total.
Proof.
  intros H. cbv zeta. rewrite !Z.quot_div_nonneg by lia.
  pose proof (Z.div_mod total 3600 ltac:(lia)) as H1.
  pose proof (Z.mod_pos_bound total 3600 ltac:(lia)) as H2.
  pose proof (Z.div_mod total 60 ltac:(lia)) as H3.
  pose proof (Z.mod_pos_bound total 60 ltac:(lia)) as H4.
  pose proof (Z.div_pos total 3600 H ltac:(lia)) as H5.
  lia.
Qed.

(** X2. For a duration that is not negative, the tokens [formatRelTime]
    writes are a proper decomposition of the whole seconds: the hours are
    not negative, the minutes and the seconds lie between 0 and 59, and
    together they make up the truncated number of seconds. *)
Theorem formatRelTime_units_in_range (duration : Duration) :
  0 <= to_seconds duration ->
  exists hours mins secs : Z,
    formatRelTime duration
    = (if 0 <? hours then Fmt.int hours ++ "h" else "")
      ++ (if 0 <? mins then Fmt.int mins ++ "m" else "")
      ++ (if 0 <? secs then Fmt.int secs ++ "s" else "")
    /\ 0 <= hours /\ 0 <= mins < 60 /\ 0 <= secs < 60
    /\ 3600 * hours + 60 * mins + secs = to_seconds duration.
Proof.
  intros H.
  pose proof (formatRelTime_tokens duration) as E. cbv zeta in E.
  pose proof (decomposition_range _ H) as R. cbv zeta in R.
  eexists _, _, _. split; [exact E|exact R].
Qed.

Lemma formatRelTime_units_in_range_witness :
  0 <= to_seconds (milliseconds 7325999)
  /\ exists hours mins secs : Z,
       formatRelTime (milliseconds 7325999)
       = (if 0 <? hours then Fmt.int hours ++ "h" else "")
         ++ (if 0 <? mins then Fmt.int mins ++ "m" else "")
         ++ (if 0 <? secs then Fmt.int secs ++ "s" else "")
       /\ 0 <= hours /\ 0 <= mins < 60 /\ 0 <= secs < 60
       /\ 3600 * hours + 60 * mins + secs = to_seconds (milliseconds 7325999).
Proof.
  split; [vm_compute; discriminate|].
  apply (formatRelTime_units_in_range (milliseconds 7325999)).
  vm_compute. discriminate.
Defined.

(** X3. [formatRelTime] returns the empty string exactly for the durations
    shorter than one second (zero and negative ones included): callers that
    omit an empty result omit exactly those. *)
Theorem formatRelTime_empty_iff (duration : Duration) :
  0 < ticksPerSecond duration ->
  formatRelTime duration = "" <-> count duration < ticksPerSecond duration.
Proof.
  intros Ht.
  assert (Hq : to_seconds duration <= 0 <-> count duration < ticksPerSecond duration).
  { unfold to_seconds. split; intros H.
    - destruct (Z.lt_ge_cases (count duration) (ticksPerSecond duration))
        as [|Hge]; [assumption|].
      assert (0 <= count duration) by lia.
      rewrite Z.quot_div_nonneg in H by lia.
      pose proof (Z.div_le_lower_bound (count duration) (ticksPerSecond duration) 1
                    Ht ltac:(lia)). lia.
    - destruct (Z.lt_ge_cases (count duration) 0) as [Hneg|Hpos].
      + pose proof (Z.quot_opp_l (count duration) (ticksPerSecond duration)
                      ltac:(lia)) as E.
        pose proof (Z.quot_pos (- count duration) (ticksPerSecond duration)
                      ltac:(lia) Ht). lia.
      + rewrite Z.quot_small by lia. lia. }
  rewrite <- Hq. clear Hq.
  pose proof (formatRelTime_tokens duration) as E. cbv zeta in E.
  split.
  - intros Hempty.
    destruct (Z.le_gt_cases (to_seconds duration) 0) as [|Hpos]; [assumption|].
    exfalso. rewrite E in Hempty.
    assert (Hnn : 0 <= to_seconds duration) by lia.
    pose proof (decomposition_range _ Hnn) as R.
    cbv zeta in R. destruct R as (Hh & Hm & Hs & Hsum).
    pose proof (append_empty_l _ _ Hempty) as E1.
    apply append_empty_r in Hempty.
    pose proof (append_empty_l _ _ Hempty) as E2.
    apply append_empty_r in Hempty.
    destruct (Z.lt_ge_cases 0 (Z.quot (to_seconds duration) 3600)) as [P|P];
      [now apply (unit_token_positive _ "h" P)|].
    destruct (Z.lt_ge_cases 0
                (Z.quot (to_seconds duration) 60
                 - 60 * Z.quot (to_seconds duration) 3600)) as [Q|Q];
      [now apply (unit_token_positive _ "m" Q)|].
    apply (unit_token_positive _ "s") in Hempty; [assumption|lia|discriminate].
  - intros H. rewrite E.
    destruct (decomposition_nonpos _ H) as (Hh & Hm & Hs).
    now rewrite !unit_token_nonpos.
Qed.

Lemma formatRelTime_empty_iff_witness :
  0 < ticksPerSecond (nanoseconds 999999999)
  /\ formatRelTime (nanoseconds 999999999) = "".
Proof.
  split; [reflexivity|].
  apply (formatRelTime_empty_iff (nanoseconds 999999999));
    vm_compute; reflexivity.
Defined.

(* ===================================================================== *)
(** * Suspend and resume *)
(* ===================================================================== *)

(** X4. After any run of entry-point calls the engine is suspended exactly
    when the last [setPowerState] call with Suspended or Awake was a
    Suspended one (or, with no such call, when it was suspended before):
    Hibernating, battery-state, limit and energy calls never change it. *)
Theorem isSuspended_run (cs : list Call) (s : System) :
  isSuspended (batmon (run cs s)) = suspendedAfter cs (isSuspended (batmon s)).
Proof.
  revert s. induction cs as [|c cs IH]; intros s; [reflexivity|].
  cbn [run]. rewrite IH. unfold isSuspended at 1.
  rewrite enterSuspendTime_perform.
  destruct c as [[| |]|bs|empty full|e]; reflexivity.
Qed.

(** X5. A suspend followed by a resume, from any state (suspended already or
    not): the engine is as before except that the suspend-entry time stamp is
    clear and the pending-suspend-report flag is set; two lines are written,
    and the second reports the time between the system-clock read of the
    Suspended call and that of the Awake call, in whole milliseconds,
    formatted by [formatRelTime]. *)
Theorem suspend_then_resume (s : System) :
  let s' := run [CallSetPowerState Suspended; CallSetPowerState Awake] s in
  let w := world s in
  let b := batmon s in
  let clock k := systemClock w (k + systemReads w)%nat in
  batmon s' = set_printSuspendStats true (set_enterSuspendTime None b)
  /\ cout (world s')
     = cout w
       ++ zonedTime w (Z.quot (clock 1%nat) 1000000000)
       ++ elapsedText w b
       ++ " - Going to sleep" ++ endl
       ++ zonedTime w (Z.quot (clock 3%nat) 1000000000)
       ++ elapsedText (tick w 0 (printSteadyReads b)) b
       ++ " - Resumed from "
       ++ formatRelTime (milliseconds (to_ms (clock 2%nat - clock 0%nat)))
       ++ " sleep" ++ endl.
Proof.
  cbv zeta. cbn [run perform].
  rewrite setPowerState_Suspended. cbv zeta.
  erewrite setPowerState_Awake_resume by reflexivity. cbv zeta.
  rewrite !printText_none, !stampText_message by discriminate.
  destruct s as [b w]. unfold advanced, tick, elapsedText, printSteadyReads.
  projections. split.
  - now destruct b.
  - rewrite !append_assoc. reflexivity.
Qed.

Lemma sleepEvent_calls (stage operation extraAction : string) (s : System) :
  sleepEvent stage operation extraAction s
  = (tt, run (signalCalls (stage, operation, extraAction)) s).
Proof.
  unfold sleepEvent, signalCalls.
  destruct (String.eqb operation "suspend"); [|reflexivity].
  destruct (String.eqb stage "pre");
    [cbn [run perform]; unfold exec; now destruct (setPowerState Suspended s) as [[] ?]|].
  destruct (String.eqb stage "post"); [|reflexivity].
  cbn [run perform]; unfold exec; now destruct (setPowerState Awake s) as [[] ?].
Qed.

Lemma sleepEventMonitor_calls (signals : list SleepSignal) (s : System) :
  sleepEventMonitor signals s = (tt, run (concat (map signalCalls signals)) s).
Proof.
  revert s. induction signals as [|[[stage operation] extraAction] rest IH];
    intros s; [reflexivity|].
  cbn [sleepEventMonitor map concat]. unfold bind.
  rewrite sleepEvent_calls, IH, run_app. reflexivity.
Qed.

Lemma suspendedAfter_signals (signals : list SleepSignal) (before : bool) :
  suspendedAfter (concat (map signalCalls signals)) before
  = suspendedAfterSignals signals before.
Proof.
  revert before.
  induction signals as [|[[stage operation] extraAction] rest IH];
    intros before; [reflexivity|].
  cbn [map concat suspendedAfterSignals signalCalls].
  destruct (String.eqb operation "suspend"); [|apply IH].
  destruct (String.eqb stage "pre"); [apply IH|].
  destruct (String.eqb stage "post"); apply IH.
Qed.

(** The members a run of [setPowerState] calls never writes. *)
Lemma power_calls_frame (cs : list Call) (s : System) :
  forallb (fun c => match c with CallSetPowerState _ => true | _ => false end)
          cs = true ->
  let b' := batmon (run cs s) in
  energyEmpty b' = energyEmpty (batmon s)
  /\ energyFull b' = energyFull (batmon s)
  /\ firstReading b' = firstReading (batmon s)
  /\ readings b' = readings (batmon s)
  /\ totalSuspendEnergy b' = totalSuspendEnergy (batmon s).
Proof.
  revert s. induction cs as [|c cs IH]; intros s H; [cbn; auto|].
  cbn [forallb] in H. apply andb_prop in H as [Hc H].
  destruct c as [p| | |]; try discriminate Hc.
  cbn [run]. specialize (IH (exec (perform (CallSetPowerState p)) s) H).
  cbv zeta in *. destruct IH as (-> & -> & -> & -> & ->).
  pose proof (limits_perform (CallSetPowerState p) s) as L. cbv zeta in L.
  cbn [perform] in *. injection L as L1 L2. rewrite L1, L2.
  change (setPowerState p) with (perform (CallSetPowerState p)).
  rewrite firstReading_perform, readings_perform, totalSuspendEnergy_perform.
  auto.
Qed.

Lemma signalCalls_power (signals : list SleepSignal) :
  forallb (fun c => match c with CallSetPowerState _ => true | _ => false end)
          (concat (map signalCalls signals)) = true.
Proof.
  induction signals as [|[[stage operation] extraAction] rest IH];
    [reflexivity|].
  cbn [map concat signalCalls]. rewrite forallb_app, IH, andb_true_r.
  destruct (String.eqb operation "suspend"); [|reflexivity].
  destruct (String.eqb stage "pre"); [reflexivity|].
  now destruct (String.eqb stage "post").
Qed.

(** X15. Whatever signals [sleepEventMonitor] receives, in whatever order,
    it never touches the capacity limits, First Reading, the Sample Window or
    the suspend-energy accumulator; and afterwards the engine is suspended
    exactly when the last signal with operation "suspend" and stage "pre" or
    "post" had stage "pre" (other operations and stages, and the extra
    action, are ignored). *)
Theorem sleepEventMonitor_effect (signals : list SleepSignal) (s : System) :
  let b' := batmon (exec (sleepEventMonitor signals) s) in
  isSuspended b' = suspendedAfterSignals signals (isSuspended (batmon s))
  /\ energyEmpty b' = energyEmpty (batmon s)
  /\ energyFull b' = energyFull (batmon s)
  /\ firstReading b' = firstReading (batmon s)
  /\ readings b' = readings (batmon s)
  /\ totalSuspendEnergy b' = totalSuspendEnergy (batmon s).
Proof.
  cbv zeta. unfold exec. rewrite sleepEventMonitor_calls. cbn [snd].
  split.
  - rewrite <- suspendedAfter_signals.
    generalize (concat (map signalCalls signals)). intros cs.
    revert s. induction cs as [|c cs IH]; intros s; [reflexivity|].
    cbn [run]. rewrite IH. unfold isSuspended at 1.
    rewrite enterSuspendTime_perform.
    destruct c as [[| |]|bs|empty full|e]; reflexivity.
  - apply (power_calls_frame _ s (signalCalls_power signals)).
Qed.

(* ===================================================================== *)
(** * First Reading and the measurement epoch *)
(* ===================================================================== *)

Lemma push_trim_nonempty (l : list Reading) (r : Reading) : push_trim l r <> [].
Proof.
  destruct l as [|a l]; [discriminate|]. rewrite push_trim_cons.
  destruct (0 <? length l)%nat; [|discriminate].
  now destruct l.
Qed.

Lemma firstReading_iff_window_run (cs : list Call) (s : System) :
  (firstReading (batmon s) = None <-> readings (batmon s) = []) ->
  firstReading (batmon (run cs s)) = None
  <-> readings (batmon (run cs s)) = [].
Proof.
  revert s. induction cs as [|c cs IH]; intros s Hs; [exact Hs|].
  cbn [run]. apply IH.
  rewrite firstReading_perform, readings_perform.
  destruct c as [p|[| |]|empty full|e]; try exact Hs; try tauto.
  destruct (isSuspended (batmon s)); [exact Hs|].
  pose proof (push_trim_nonempty (readings (batmon s)) (readingAt s e)).
  destruct (firstReading (batmon s)); split; intros; congruence.
Qed.

(** X6. After any run of entry-point calls on a fresh engine, First Reading
    is unset exactly when the Sample Window is empty: the two are cleared
    together and filled together. *)
Theorem firstReading_iff_window (w : World) (cs : list Call) :
  let b := batmon (run cs (boot w)) in
  firstReading b = None <-> readings b = [].
Proof.
  cbv zeta. apply firstReading_iff_window_run. cbn. tauto.
Qed.

(** X7. Through any run without a Charging or Discharging transition, a
    First Reading that is set is kept, and one that is unset becomes the
    first reading the run admits: readings dropped while suspended are
    skipped, and later readings never replace the anchor. *)
Theorem firstReading_anchor (cs : list Call) (s : System) :
  noReset cs = true ->
  firstReading (batmon (run cs s))
  = match firstReading (batmon s) with
    | Some first => Some first
    | None => firstAdmitted cs s
    end.
Proof.
  revert s. induction cs as [|c cs IH]; intros s H.
  - cbn. now destruct (firstReading (batmon s)).
  - cbn [noReset forallb] in H. apply andb_prop in H as [Hc H].
    cbn [run]. rewrite (IH _ H), firstReading_perform. cbn [firstAdmitted].
    destruct c as [p|[| |]|empty full|e]; try discriminate Hc; try reflexivity.
    destruct (isSuspended (batmon s)); [reflexivity|].
    now destruct (firstReading (batmon s)).
Qed.

Lemma firstReading_anchor_witness :
  noReset [CallSetPowerState Suspended; CallUpdateEnergy 50;
           CallSetPowerState Awake; CallUpdateEnergy 49; CallSetBatteryState Idle;
           CallUpdateEnergy 48] = true
  /\ option_map energy
       (firstReading
          (batmon
             (run [CallSetPowerState Suspended; CallUpdateEnergy 50;
                   CallSetPowerState Awake; CallUpdateEnergy 49;
                   CallSetBatteryState Idle; CallUpdateEnergy 48]
                  (boot demoWorld))))
     = Some 49%float.
Proof.
  split; [reflexivity|].
  rewrite (firstReading_anchor
             [CallSetPowerState Suspended; CallUpdateEnergy 50;
              CallSetPowerState Awake; CallUpdateEnergy 49;
              CallSetBatteryState Idle; CallUpdateEnergy 48]
             (boot demoWorld) eq_refl).
  vm_compute. reflexivity.
Defined.

(** X11. If a fresh engine is never told to suspend, then after any run of
    the other calls (spurious Awake calls included) it is not suspended, no
    suspend report is pending and the suspend-energy accumulator is zero, so
    that the average rate is taken over the plain difference to First
    Reading. *)
Theorem never_suspended (w : World) (cs : list Call) :
  noSuspend cs = true ->
  let b := batmon (run cs (boot w)) in
  isSuspended b = false
  /\ printSuspendStats b = false
  /\ totalSuspendEnergy b = 0%float.
Proof.
  intros H. cbv zeta.
  assert (G : forall s : System,
             enterSuspendTime (batmon s) = None
             /\ printSuspendStats (batmon s) = false
             /\ totalSuspendEnergy (batmon s) = 0%float ->
             enterSuspendTime (batmon (run cs s)) = None
             /\ printSuspendStats (batmon (run cs s)) = false
             /\ totalSuspendEnergy (batmon (run cs s)) = 0%float).
  { induction cs as [|c cs IH]; intros s Hs; [exact Hs|].
    cbn [noSuspend forallb] in H. apply andb_prop in H as [Hc H].
    cbn [run]. apply (IH H). destruct Hs as (Ht & Hf & Ha).
    rewrite enterSuspendTime_perform, printSuspendStats_perform,
      totalSuspendEnergy_perform.
    unfold isSuspended. rewrite Ht, Hf, Ha.
    destruct c as [[| |]|[| |]|empty full|e]; try discriminate Hc; auto.
    cbn. now destruct (last (readings (batmon s))). }
  destruct (G (boot w)) as (Ht & Hf & Ha); [cbn; auto|].
  unfold isSuspended. now rewrite Ht.
Qed.

Lemma never_suspended_witness :
  noSuspend [CallSetPowerState Awake; CallUpdateEnergy 50;
             CallSetBatteryState Discharging; CallUpdateEnergy 49;
             CallUpdateEnergy 48] = true
  /\ totalSuspendEnergy
       (batmon (run [CallSetPowerState Awake; CallUpdateEnergy 50;
                     CallSetBatteryState Discharging; CallUpdateEnergy 49;
                     CallUpdateEnergy 48] (boot demoWorld)))
     = 0%float.
Proof.
  split; [reflexivity|].
  apply (never_suspended demoWorld
           [CallSetPowerState Awake; CallUpdateEnergy 50;
            CallSetBatteryState Discharging; CallUpdateEnergy 49;
            CallUpdateEnergy 48] eq_refl).
Defined.

(* ===================================================================== *)
(** * The lines that are written *)
(* ===================================================================== *)

Lemma back_push_trim (l : list Reading) (r : Reading) :
  back (push_trim l r) = Some r.
Proof.
  unfold back. destruct l as [|a l]; [reflexivity|]. rewrite push_trim_cons.
  destruct (0 <? length l)%nat; [apply last_snoc|].
  change (last ((a :: l) ++ [r]) = Some r). apply last_snoc.
Qed.

Lemma prev_push_trim (l : list Reading) (r : Reading) :
  (if (1 <? length (push_trim l r))%nat then prev2 (push_trim l r) else None)
  = last l.
Proof.
  destruct l as [|a l]; [reflexivity|].
  assert (Hne : a :: l <> []) by discriminate.
  pose proof (proj2 (push_trim_two (a :: l) r) Hne) as H2.
  apply Nat.ltb_lt in H2. rewrite H2. now apply prev2_push_trim.
Qed.

Lemma long_push_trim (l : list Reading) (r : Reading) :
  (1 <? length (push_trim l r))%nat = match last l with Some _ => true | None => false end.
Proof.
  destruct l as [|a l]; [reflexivity|].
  assert (Hne : a :: l <> []) by discriminate.
  pose proof (proj2 (push_trim_two (a :: l) r) Hne) as H2.
  apply Nat.ltb_lt in H2. rewrite H2.
  destruct (last (a :: l)) eqn:E; [reflexivity|]. now apply last_None in E.
Qed.

(** Evaluates the tests of closed flag sets. *)
Ltac eval_flags :=
  repeat match goal with
         | |- context [?f &' ?a] =>
             let v := eval vm_compute in (f &' a) in
             change (f &' a) with v
         end.

(** X8. An admitted reading with no suspend report pending writes one line:
    the stamp, the energy (with its percentage when the limits are known)
    and, only when the window already held a reading, the rate against that
    reading followed by the average rate against First Reading. The first
    reading of an epoch therefore shows neither rate. *)
Theorem ordinary_reading_line (e : float) (s : System) :
  isSuspended (batmon s) = false ->
  printSuspendStats (batmon s) = false ->
  let s' := exec (updateEnergy e) s in
  let w := world s in
  let b := batmon s in
  let r := readingAt s e in
  let first := match firstReading b with Some f => f | None => r end in
  cout (world s')
  = cout w
    ++ zonedTime w (Z.quot (systemClock w (S (systemReads w))) 1000000000)
    ++ elapsedText (tick w 1 1) (batmon s')
    ++ energyText b r
    ++ match last (readings b) with
       | Some p => instantRateText b r p ++ averageRateText b r first
       | None => ""
       end
    ++ endl.
Proof.
  intros Hawake Hflag. cbv zeta.
  rewrite updateEnergy_admitted by exact Hawake. cbv zeta.
  unfold accounted, updateEnergy_msg, updateEnergy_flags. rewrite Hflag.
  cbn [andb]. unfold with_batmon, advanced, printText, stampText, fieldsText.
  projections.
  destruct (stored_fields (batmon s) (readingAt s e))
    as (E1 & E2 & E3 & E4 & _ & _ & E7).
  rewrite E3, E4, back_push_trim, prev_push_trim, long_push_trim.
  unfold energyText, instantRateText, averageRateText, rateText, elapsedText.
  projections. rewrite E1, E2, E3, E7.
  eval_flags.
  destruct (last (readings (batmon s))) as [p|];
    destruct (firstReading (batmon s)) as [f|];
    cbn; rewrite ?append_assoc, ?append_nil_r; reflexivity.
Qed.

Lemma ordinary_reading_line_witness :
  isSuspended (batmon (boot demoWorld)) = false
  /\ printSuspendStats (batmon (boot demoWorld)) = false
  /\ cout (world (exec (updateEnergy 50) (boot demoWorld)))
     = "@1700000001 (+1s) - 50.00 Wh" ++ endl.
Proof.
  split; [reflexivity|]. split; [reflexivity|].
  rewrite (ordinary_reading_line 50 (boot demoWorld) eq_refl eq_refl).
  vm_compute. reflexivity.
Defined.

(** X9. An admitted reading that finds a suspend report pending and a
    reading in the window writes one line: the stamp, the message
    ["Sleep energy use"], the signed delta to that reading (with its
    percentage when the limits are known) and the rate against it; it shows
    neither the absolute energy nor the average rate. *)
Theorem pending_reading_line (e : float) (s : System) (p : Reading) :
  isSuspended (batmon s) = false ->
  printSuspendStats (batmon s) = true ->
  last (readings (batmon s)) = Some p ->
  let s' := exec (updateEnergy e) s in
  let w := world s in
  let b := batmon s in
  let r := readingAt s e in
  cout (world s')
  = cout w
    ++ zonedTime w (Z.quot (systemClock w (S (systemReads w))) 1000000000)
    ++ elapsedText (tick w 1 1) (batmon s')
    ++ " - Sleep energy use"
    ++ relEnergyText b r p
    ++ instantRateText b r p
    ++ endl.
Proof.
  intros Hawake Hflag Hlast. cbv zeta.
  rewrite updateEnergy_admitted by exact Hawake. cbv zeta.
  unfold updateEnergy_msg, updateEnergy_flags. rewrite Hflag.
  unfold with_batmon, advanced, printText, fieldsText.
  rewrite stampText_message by discriminate.
  projections.
  destruct (accounted_fields (batmon s) (readingAt s e))
    as (E1 & E2 & E3 & E4 & _ & _).
  rewrite E3, E4, back_push_trim, prev_push_trim, long_push_trim, Hlast.
  unfold relEnergyText, instantRateText, percentText, rateText, elapsedText.
  projections. rewrite E1, E2, E3. eval_flags.
  destruct (firstReading (batmon s)) as [f|];
    cbn; rewrite ?append_assoc, ?append_nil_r; reflexivity.
Qed.

Lemma pending_reading_line_witness :
  isSuspended (batmon resumed) = false
  /\ printSuspendStats (batmon resumed) = true
  /\ option_map energy (last (readings (batmon resumed))) = Some 50%float
  /\ cout (world (exec (updateEnergy 49) resumed))
     = cout (world resumed)
       ++ "@1700000007 (+5s) - Sleep energy use - -1.00 Wh / Rate -600.00 W"
       ++ endl.
Proof.
  split; [reflexivity|]. split; [reflexivity|]. split; [reflexivity|].
  assert (H : last (readings (batmon resumed))
              = Some {| time := 1700000000000000000; relTime := 0;
                        energy := 50 |})
    by (vm_compute; reflexivity).
  rewrite (pending_reading_line 49 resumed _ eq_refl eq_refl H).
  vm_compute. reflexivity.
Defined.

(** X10. The battery-state lines carry no energy field, whatever the window
    holds. The Idle line has the stamp with the elapsed run time; the
    Charging and Discharging lines are written after the reset and so have
    no elapsed run time either, and read no steady clock. *)
Theorem setBatteryState_lines (s : System) :
  let w := world s in
  let stamp := zonedTime w (Z.quot (systemClock w (systemReads w)) 1000000000) in
  cout (world (exec (setBatteryState Idle) s))
  = cout w ++ stamp ++ elapsedText w (batmon s) ++ " - Battery idle" ++ endl
  /\ cout (world (exec (setBatteryState Charging) s))
     = cout w ++ stamp ++ " - Battery charging" ++ endl
  /\ cout (world (exec (setBatteryState Discharging) s))
     = cout w ++ stamp ++ " - Battery discharging" ++ endl
  /\ steadyReads (world (exec (setBatteryState Charging) s)) = steadyReads w
  /\ steadyReads (world (exec (setBatteryState Discharging) s)) = steadyReads w.
Proof.
  cbv zeta. rewrite setBatteryState_Idle.
  rewrite !setBatteryState_reset by discriminate. cbv zeta.
  rewrite !printText_none, !stampText_message by discriminate.
  unfold advanced, with_batmon, cleared, elapsedText. projections.
  repeat split; rewrite ?append_assoc; reflexivity.
Qed.

(* ===================================================================== *)
(** * [processBatteryProperties]: wrong types and unknown names *)
(* ===================================================================== *)

Lemma andThen_threw (c k : M Outcome) (s s' : System) :
  c s = (BadVariantAccess, s') -> andThen c k s = (BadVariantAccess, s').
Proof. intros H. unfold andThen, bind. now rewrite H. Qed.

(** Every way through [processBatteryProperties]. *)
Lemma processBatteryProperties_cases
  (properties : UPowerDeviceProperties) (s : System) :
  processBatteryProperties properties s
  = if not_uint32 (properties !! "State") then (BadVariantAccess, s)
    else
      let s1 := run (stateCalls properties) s in
      if not_double (properties !! "EnergyEmpty")
         || present (properties !! "EnergyEmpty")
            && not_double (properties !! "EnergyFull")
      then (BadVariantAccess, s1)
      else
        let s2 := run (limitsCalls properties) s1 in
        if not_double (properties !! "Energy") then (BadVariantAccess, s2)
        else (Returned, run (energyCalls properties) s2).
Proof.
  unfold processBatteryProperties.
  match goal with
  | |- andThen ?c _ s = _ =>
      assert (H1 : c s = if not_uint32 (properties !! "State")
                         then (BadVariantAccess, s)
                         else (Returned, run (stateCalls properties) s))
  end.
  { unfold stateCalls.
    destruct (properties !! "State") as [[]|]; try reflexivity.
    cbn [get_uint32 not_uint32].
    destruct (Z.eqb_spec v 1) as [->|]; [apply returning_spec|].
    destruct (Z.eqb_spec v 2) as [->|]; [apply returning_spec|].
    destruct (Z.eqb_spec v 4) as [->|]; [apply returning_spec|].
    destruct (Z.eqb_spec v 5) as [->|]; [apply returning_spec|].
    cbn [orb]. unfold ret.
    destruct v as [|[[[]|[]|]|[[]|[]|]|]|]; try reflexivity; congruence. }
  destruct (not_uint32 (properties !! "State"));
    [now rewrite (andThen_threw _ _ _ _ H1)|].
  rewrite (andThen_returned _ _ _ _ H1). clear H1. cbv zeta.
  generalize (run (stateCalls properties) s). intros s1.
  match goal with
  | |- andThen ?c _ s1 = _ =>
      assert (H2 : c s1 = if not_double (properties !! "EnergyEmpty")
                             || present (properties !! "EnergyEmpty")
                                && not_double (properties !! "EnergyFull")
                          then (BadVariantAccess, s1)
                          else (Returned, run (limitsCalls properties) s1))
  end.
  { unfold limitsCalls.
    destruct (properties !! "EnergyEmpty") as [[]|]; try reflexivity.
    cbn [get_double not_double present orb andb].
    destruct (properties !! "EnergyFull") as [[]|]; reflexivity. }
  destruct (_ || _); [now rewrite (andThen_threw _ _ _ _ H2)|].
  rewrite (andThen_returned _ _ _ _ H2). clear H2.
  generalize (run (limitsCalls properties) s1). intros s2.
  unfold energyCalls.
  destruct (properties !! "Energy") as [[]|]; try reflexivity.
  cbn [get_double not_double]. apply returning_spec.
Qed.

Lemma processBatteryProperties_throws
  (properties : UPowerDeviceProperties) (s : System) :
  fst (processBatteryProperties properties s)
  = if throws properties then BadVariantAccess else Returned.
Proof.
  rewrite processBatteryProperties_cases. unfold throws. cbv zeta.
  destruct (not_uint32 _); [reflexivity|]. cbn [orb].
  destruct (not_double (properties !! "EnergyEmpty")); [reflexivity|].
  cbn [orb].
  destruct (present _ && not_double _); [reflexivity|]. cbn [orb].
  now destruct (not_double _).
Qed.

(** X13. [processBatteryProperties] ends with [std::bad_variant_access]
    exactly when a property it reads holds another alternative than the one
    it asks for ("EnergyFull" is only read when "EnergyEmpty" is present).
    The calls made before the throw stay made: a wrong "State" leaves the
    system untouched, a wrong "EnergyEmpty" or "EnergyFull" comes after the
    battery-state call, and a wrong "Energy" after the battery-state and
    limits calls. *)
Theorem processBatteryProperties_bad_variant
  (properties : UPowerDeviceProperties) (s : System) :
  fst (processBatteryProperties properties s)
  = (if throws properties then BadVariantAccess else Returned)
  /\ snd (processBatteryProperties properties s)
     = if not_uint32 (properties !! "State") then s
       else if not_double (properties !! "EnergyEmpty")
               || present (properties !! "EnergyEmpty")
                  && not_double (properties !! "EnergyFull")
       then run (stateCalls properties) s
       else if not_double (properties !! "Energy")
       then run (stateCalls properties ++ limitsCalls properties) s
       else run (stateCalls properties ++ limitsCalls properties
                 ++ energyCalls properties) s.
Proof.
  split; [apply processBatteryProperties_throws|].
  rewrite processBatteryProperties_cases. cbv zeta. rewrite !run_app.
  destruct (not_uint32 _); [reflexivity|].
  destruct (_ || _); [reflexivity|].
  now destruct (not_double _).
Qed.

(** X14. [processBatteryProperties] looks at no other property than
    "State", "EnergyEmpty", "EnergyFull" and "Energy": adding, replacing or
    removing any other entry of the notification changes nothing, whatever
    its type. *)
Theorem processBatteryProperties_other_names
  (properties : UPowerDeviceProperties) (name : string)
  (value : UPowerDeviceProperty) (s : System) :
  lookedUp name = false ->
  processBatteryProperties (<[name := value]> properties) s
  = processBatteryProperties properties s
  /\ processBatteryProperties (delete name properties) s
     = processBatteryProperties properties s.
Proof.
  intros H. unfold lookedUp in H.
  apply orb_false_elim in H as [H H4]. apply orb_false_elim in H as [H H3].
  apply orb_false_elim in H as [H1 H2].
  apply String.eqb_neq in H1, H2, H3, H4.
  unfold processBatteryProperties.
  rewrite !lookup_insert_ne, !lookup_delete_ne by congruence.
  split; reflexivity.
Qed.

Lemma processBatteryProperties_other_names_witness :
  lookedUp "Percentage" = false
  /\ processBatteryProperties
       (<["Percentage" := PString "eighty"]> (list_to_map energyThenState))
       (boot demoWorld)
     = processBatteryProperties (list_to_map energyThenState) (boot demoWorld).
Proof.
  split; [reflexivity|].
  exact (proj1 (processBatteryProperties_other_names
                  (list_to_map energyThenState) "Percentage"
                  (PString "eighty") (boot demoWorld) eq_refl)).
Defined.

(* ===================================================================== *)
(** * [powerEventMonitor] *)
(* ===================================================================== *)

Lemma put_advanced (text : string) (s : System) :
  put text s = (tt, advanced s 0 0 text).
Proof. reflexivity. Qed.

Lemma findBattery_spec (devices : list (string * Z))
  (batteryPath : option string) (s : System) :
  findBattery devices batteryPath s
  = match batteryPath, batteries devices with
    | _, [] => (Some batteryPath, s)
    | None, [p] =>
        (Some (Some p), advanced s 0 0 ("Found battery at " ++ p ++ endl))
    | None, p1 :: p2 :: _ =>
        (None,
         advanced s 0 0
           (("Found battery at " ++ p1 ++ endl)
            ++ ("Found battery at " ++ p2 ++ endl)
            ++ "Multiple batteries not supported yet" ++ endl))
    | Some _, p :: _ =>
        (None,
         advanced s 0 0
           (("Found battery at " ++ p ++ endl)
            ++ "Multiple batteries not supported yet" ++ endl))
    end.
Proof.
  revert batteryPath s.
  induction devices as [|[device type] rest IH]; intros batteryPath s.
  - cbn. now destruct batteryPath.
  - cbn [findBattery]. unfold batteries in *. cbn [List.filter snd].
    destruct (type =? 2); cbn [map fst]; [|apply IH].
    unfold bind at 1. rewrite put_advanced.
    destruct batteryPath as [p0|].
    + unfold bind, ret. rewrite put_advanced, advanced_advanced. reflexivity.
    + rewrite IH.
      destruct (map fst (List.filter (fun d => snd d =? 2) rest)) as [|p2 l];
        [reflexivity|].
      now rewrite advanced_advanced.
Qed.

(** X16. [powerEventMonitor] goes on to read the battery's properties only
    when exactly one enumerated device has "Type" 2. With none it writes
    ["No battery found"]; with more than one it writes a ["Found battery at"]
    line for the first two and ["Multiple batteries not supported yet"]; in
    both cases it returns without a single call into the engine (engine and
    clocks are as before). With exactly one it writes its ["Found battery at"]
    line, then processes the snapshot of all properties and after it the
    change signals. *)
Theorem powerEventMonitor_discovery (bus : Bus) (s : System) :
  powerEventMonitor bus s
  = match batteries (enumerateDevices bus) with
    | [] => (GaveUp, advanced s 0 0 ("No battery found" ++ endl))
    | [p] =>
        let s1 := advanced s 0 0 ("Found battery at " ++ p ++ endl) in
        match processBatteryProperties (getAllProperties bus p) s1 with
        | (Returned, s2) => watch (propertiesChanged bus p) s2
        | (BadVariantAccess, s2) => (Terminated, s2)
        end
    | p1 :: p2 :: _ =>
        (GaveUp,
         advanced s 0 0
           (("Found battery at " ++ p1 ++ endl)
            ++ ("Found battery at " ++ p2 ++ endl)
            ++ "Multiple batteries not supported yet" ++ endl))
    end.
Proof.
  unfold powerEventMonitor, bind at 1. rewrite findBattery_spec.
  destruct (batteries (enumerateDevices bus)) as [|p1 [|p2 l]];
    try reflexivity.
  cbv zeta. unfold bind.
  now destruct (processBatteryProperties _ _) as [[] ?].
Qed.

Lemma watch_app (before rest : list PropertiesChanged) (s : System) :
  watch (before ++ rest) s
  = match watch before s with
    | (Listening, s') => watch rest s'
    | other => other
    end.
Proof.
  revert s. induction before as [|change before IH]; intros s; [reflexivity|].
  cbn [app watch]. unfold bind.
  destruct (processBatteryProperties (changedProps change) s) as [[] s'];
    [apply IH|reflexivity].
Qed.

Lemma watch_never_gives_up (changes : list PropertiesChanged) (s : System) :
  fst (watch changes s) <> GaveUp.
Proof.
  revert s. induction changes as [|change rest IH]; intros s; [discriminate|].
  cbn [watch]. unfold bind.
  destruct (processBatteryProperties (changedProps change) s) as [[] s'];
    [apply IH|discriminate].
Qed.

(** X17. The change-signal loop of [powerEventMonitor] ends at the first
    signal whose properties make [processBatteryProperties] throw: the
    signals that follow it never reach the engine, whatever they hold. *)
Theorem watch_ends_at_throw
  (before after : list PropertiesChanged) (change : PropertiesChanged)
  (s : System) :
  throws (changedProps change) = true ->
  watch (before ++ change :: after) s = watch (before ++ [change]) s
  /\ fst (watch (before ++ change :: after) s) = Terminated.
Proof.
  intros H.
  assert (E : forall rest s', watch (change :: rest) s'
                              = (Terminated,
                                 snd (processBatteryProperties
                                        (changedProps change) s'))).
  { intros rest s'. cbn [watch]. unfold bind.
    pose proof (processBatteryProperties_throws (changedProps change) s') as T.
    rewrite H in T.
    destruct (processBatteryProperties (changedProps change) s') as [o s''].
    cbn in T. now subst o. }
  rewrite !watch_app.
  pose proof (watch_never_gives_up before s) as G.
  destruct (watch before s) as [[| |] s']; [now cbn in G|split; reflexivity|].
  lazy beta iota. now rewrite !E.
Qed.

Lemma watch_ends_at_throw_witness :
  throws (changedProps malformed) = true
  /\ batmon (snd (watch ([] ++ malformed :: [wellFormed]) (boot demoWorld)))
     = BatteryMonitor_default.
Proof.
  split; [vm_compute; reflexivity|].
  rewrite (proj1 (watch_ends_at_throw [] [wellFormed] malformed (boot demoWorld)
                    eq_refl)).
  vm_compute. reflexivity.
Defined.

(* ===================================================================== *)
(** * [printRate] with a zero duration *)
(* ===================================================================== *)




(* ===================================================================== *)
(** * The listeners reach the engine through its entry points only *)
(* ===================================================================== *)

Lemma processBatteryProperties_is_run
  (properties : UPowerDeviceProperties) (s : System) :
  exists cs : list Call, snd (processBatteryProperties properties s) = run cs s.
Proof.
  rewrite processBatteryProperties_cases. cbv zeta.
  destruct (not_uint32 _); [now exists []|].
  destruct (_ || _); [now eexists|].
  destruct (not_double _); rewrite <- ?run_app; now eexists.
Qed.

Lemma handle_is_run (r : Received) (s : System) :
  exists cs : list Call, handle r s = run cs s.
Proof.
  destruct r as [[[stage operation] extraAction]|properties]; cbn [handle].
  - unfold exec. rewrite sleepEvent_calls. now eexists.
  - apply processBatteryProperties_is_run.
Qed.

Lemma handleAll_is_run (received : list Received) (s : System) :
  exists cs : list Call, handleAll received s = run cs s.
Proof.
  unfold handleAll. revert s.
  induction received as [|r rest IH]; intros s; [now exists []|].
  cbn [fold_left]. destruct (handle_is_run r s) as [cs1 ->].
  destruct (IH (run cs1 s)) as [cs2 ->].
  exists (cs1 ++ cs2)%list. now rewrite run_app.
Qed.

(** X18. Whatever sleep signals and property notifications the two listeners
    receive, well typed or not and in whatever order their handlers run, the
    effect on a fresh engine is that of a run of entry-point calls; hence
    the Sample Window never holds more than two readings, and First Reading
    is unset exactly when the window is empty. *)
Theorem listeners_keep_invariants (w : World) (received : list Received) :
  let s := handleAll received (boot w) in
  (exists cs : list Call, s = run cs (boot w))
  /\ (length (readings (batmon s)) <= 2)%nat
  /\ (firstReading (batmon s) = None <-> readings (batmon s) = []).
Proof.
  cbv zeta. destruct (handleAll_is_run received (boot w)) as [cs ->].
  split; [now exists cs|]. split.
  - apply readings_bounded_run. cbn. lia.
  - apply firstReading_iff_window_run. cbn. tauto.
Qed.
